(** * The teachers resource controller (src/controllers/teacher.controller.js)

    A shallow embedding of the five Express handlers of the controller and of
    the ECMAScript operations they call on the request, followed by the
    properties of the handlers.

    The handlers are asynchronous functions that talk to two collaborators:
    the Sequelize models [db.Teacher] / [db.Course] (the persistence gateway)
    and the Express response object [res].  They are embedded as programs
    over those two interfaces ([prog]); running a program against a gateway
    gives the response written, the calls made and the store left behind. *)

From Stdlib Require Import ZArith Lia String Ascii List Bool.
From Stdlib Require Floats.SpecFloat.
From stdpp Require Import base option list gmap strings pretty sorting.

Local Open Scope string_scope.
Local Open Scope Z_scope.

(* ===================================================================== *)
(** ** Thrown values and settled promises *)
(* ===================================================================== *)

(** A thrown value: the handlers read nothing of it but [err.message]. *)
Record error : Type := Error { message : string }.

(** A promise that has settled, or an expression that has been evaluated:
    an [await] on it yields the value or throws the reason. *)
Inductive outcome (A : Type) : Type :=
| Resolved (a : A)
| Rejected (e : error).
Arguments Resolved {A} a.
Arguments Rejected {A} e.

(* ===================================================================== *)
(** ** ECMAScript operations used by the handlers *)
(* ===================================================================== *)

Module Js.

(** *** Strings

    A [string] is a sequence of code units below 256: the strings of
    JavaScript whose characters all lie in that range. *)

(** *** The values of [req.query]

    A parsed query string holds a string for a key given once, an array for
    a repeated key, and an object for bracketed keys ([a[b]=c]). *)
#[warnings="-register-all"]
Inductive value : Type :=
| Str (s : string)
| Arr (items : list value)
| Obj (fields : list (string * value)).

(** *** Numbers

    A Number is an IEEE 754 double: NaN, an infinity, a signed zero, or a
    finite non-zero value [m * 2^e].  The finite values are kept in the
    normal form of the format: [2^52 <= |m| < 2^53] and [-1074 <= e <= 971],
    or [|m| < 2^52] and [e = -1074] for the subnormal ones. *)
Inductive number : Type :=
| NaN
| Infinity (negative : bool)
| Zero (negative : bool)
| Finite (m : Z) (e : Z).

(** The integer part of the binary logarithm of [n / d], for positive [n]
    and [d]. *)
Definition floorLog2 (n d : Z) : Z :=
  let l := Z.log2 n - Z.log2 d in
  if 0 <=? l
  then (if d * 2 ^ l <=? n then l else l - 1)
  else (if d <=? n * 2 ^ (- l) then l else l - 1).

(** [n / d] divided by [2^e], as a fraction. *)
Definition scaled (n d e : Z) : Z * Z :=
  if e <? 0 then (n * 2 ^ (- e), d) else (n, d * 2 ^ e).

(** The double nearest to [n / d], for positive [n] and [d], with the sign
    given: the quotient is cut to 53 significant bits (fewer below the
    normal range), to the nearest, a tie going to the even mantissa. *)
Definition roundPos (negative : bool) (n d : Z) : number :=
  let e := Z.max (floorLog2 n d - 52) (-1074) in
  let '(N, D) := scaled n d e in
  let q := N / D in
  let r := N mod D in
  let up := (D <? 2 * r) || ((D =? 2 * r) && Z.odd q) in
  let m := if up then q + 1 else q in
  let '(m, e) := if m =? 2 ^ 53 then (2 ^ 52, e + 1) else (m, e) in
  if m =? 0 then Zero negative
  else if 971 <? e then Infinity negative
  else Finite (if negative then - m else m) e.

(** The double nearest to [n / d], for positive [d]; an exact zero is [+0]. *)
Definition round (n d : Z) : number :=
  if n =? 0 then Zero false
  else if 0 <? n then roundPos false n d
  else roundPos true (- n) d.

(** The double nearest to [n * 2^e]. *)
Definition roundDyadic (n e : Z) : number :=
  if e <? 0 then round n (2 ^ (- e)) else round (n * 2 ^ e) 1.

(** The Number value for an integer (a literal such as [10], the
    mathematical value [parseInt] has read). *)
Definition ofZ (z : Z) : number := round z 1.

Definition isNegative (x : number) : bool :=
  match x with
  | NaN => false
  | Infinity s | Zero s => s
  | Finite m _ => m <? 0
  end.

(** Unary minus. *)
Definition neg (x : number) : number :=
  match x with
  | NaN => NaN
  | Infinity s => Infinity (negb s)
  | Zero s => Zero (negb s)
  | Finite m e => Finite (- m) e
  end.

(** [x + y]. *)
Definition add (x y : number) : number :=
  match x, y with
  | NaN, _ | _, NaN => NaN
  | Infinity sx, Infinity sy => if Bool.eqb sx sy then x else NaN
  | Infinity _, _ => x
  | _, Infinity _ => y
  | Zero sx, Zero sy => Zero (sx && sy)
  | Zero _, Finite _ _ => y
  | Finite _ _, Zero _ => x
  | Finite m1 e1, Finite m2 e2 =>
      let e := Z.min e1 e2 in
      roundDyadic (m1 * 2 ^ (e1 - e) + m2 * 2 ^ (e2 - e)) e
  end.

(** [x - y]. *)
Definition sub (x y : number) : number := add x (neg y).

(** [x * y]. *)
Definition mul (x y : number) : number :=
  match x, y with
  | NaN, _ | _, NaN => NaN
  | Infinity _, Zero _ | Zero _, Infinity _ => NaN
  | Infinity _, _ | _, Infinity _ => Infinity (xorb (isNegative x) (isNegative y))
  | Zero _, _ | _, Zero _ => Zero (xorb (isNegative x) (isNegative y))
  | Finite m1 e1, Finite m2 e2 =>
      let s := xorb (m1 <? 0) (m2 <? 0) in
      let e := e1 + e2 in
      if e <? 0 then roundPos s (Z.abs (m1 * m2)) (2 ^ (- e))
      else roundPos s (Z.abs (m1 * m2) * 2 ^ e) 1
  end.

(** [x / y]. *)
Definition div (x y : number) : number :=
  match x, y with
  | NaN, _ | _, NaN => NaN
  | Infinity _, Infinity _ | Zero _, Zero _ => NaN
  | Infinity _, _ | _, Zero _ => Infinity (xorb (isNegative x) (isNegative y))
  | _, Infinity _ | Zero _, _ => Zero (xorb (isNegative x) (isNegative y))
  | Finite m1 e1, Finite m2 e2 =>
      let s := xorb (m1 <? 0) (m2 <? 0) in
      let e := e1 - e2 in
      if e <? 0 then roundPos s (Z.abs m1) (Z.abs m2 * 2 ^ (- e))
      else roundPos s (Z.abs m1 * 2 ^ e) (Z.abs m2)
  end.

(** [Math.ceil(x)]: the least integer not below [x]; [-0] for a negative
    [x] above [-1]. *)
Definition ceil (x : number) : number :=
  match x with
  | Finite m e =>
      if 0 <=? e then x
      else
        let c := - ((- m) / 2 ^ (- e)) in
        if c =? 0 then Zero (m <? 0) else ofZ c
  | _ => x
  end.

(** [x <= y]; false when either is NaN. *)
Definition leb (x y : number) : bool :=
  match x, y with
  | NaN, _ | _, NaN => false
  | Infinity true, _ | _, Infinity false => true
  | Infinity false, _ | _, Infinity true => false
  | Zero _, Zero _ => true
  | Zero _, Finite m _ => 0 <? m
  | Finite m _, Zero _ => m <? 0
  | Finite m1 e1, Finite m2 e2 =>
      let e := Z.min e1 e2 in
      m1 * 2 ^ (e1 - e) <=? m2 * 2 ^ (e2 - e)
  end.

(** The integer a Number is, when it is one. *)
Definition toZ (x : number) : option Z :=
  match x with
  | Zero _ => Some 0
  | Finite m e =>
      if 0 <=? e then Some (m * 2 ^ e)
      else if m mod 2 ^ (- e) =? 0 then Some (m / 2 ^ (- e)) else None
  | _ => None
  end.

(** ToBoolean on numbers, strings and query values: NaN, the zeros and the
    empty string are falsy, arrays and objects are truthy. *)
Definition truthyNumber (n : number) : bool :=
  match n with
  | NaN | Zero _ => false
  | Infinity _ | Finite _ _ => true
  end.

Definition truthyString (s : string) : bool :=
  match s with
  | String _ _ => true
  | EmptyString => false
  end.

Definition truthyValue (v : value) : bool :=
  match v with
  | Str s => truthyString s
  | Arr _ | Obj _ => true
  end.

(** [n || d] for a number [n] and a number literal [d]. *)
Definition orDefault (n d : number) : number :=
  if truthyNumber n then n else d.

(** [xs.filter(Boolean)] on an array whose entries are objects or [null]:
    the objects, in order. *)
Definition filterBoolean {A} (xs : list (option A)) : list A :=
  omap id xs.

(** *** ToString

    [xs.join(",")] on strings. *)
Fixpoint join (pieces : list string) : string :=
  match pieces with
  | [] => EmptyString
  | [piece] => piece
  | piece :: rest => piece +:+ String "," (join rest)
  end.

Definition hasOwn (key : string) (fields : list (string * value)) : bool :=
  existsb (fun field => String.eqb (fst field) key) fields.

(** ToString of a query value.  An array joins the strings of its elements
    with commas.  An object has no callable [toString] of its own (its
    properties are query values), so it prints as [[object Object]] through
    [Object.prototype.toString], unless a property named [toString] hides
    that method: then the conversion throws a TypeError. *)
Fixpoint ToStringValue (v : value) : outcome string :=
  match v with
  | Str s => Resolved s
  | Arr items =>
      let fix each (l : list value) : outcome (list string) :=
        match l with
        | [] => Resolved []
        | x :: rest =>
            match ToStringValue x with
            | Resolved s =>
                match each rest with
                | Resolved ss => Resolved (s :: ss)
                | Rejected e => Rejected e
                end
            | Rejected e => Rejected e
            end
        end in
      match each items with
      | Resolved pieces => Resolved (join pieces)
      | Rejected e => Rejected e
      end
  | Obj fields =>
      if hasOwn "toString" fields
      then Rejected (Error "Cannot convert object to primitive value")
      else Resolved "[object Object]"
  end.

(** ToString of a property that may be missing: [undefined] reads
    "undefined". *)
Definition ToString (v : option value) : outcome string :=
  match v with
  | Some v => ToStringValue v
  | None => Resolved "undefined"
  end.

(** *** parseInt *)

(** StrWhiteSpaceChar, among the code units below 256. *)
Definition isWhiteSpace (c : ascii) : bool :=
  match nat_of_ascii c with
  | 9%nat | 10%nat | 11%nat | 12%nat | 13%nat | 32%nat | 160%nat => true
  | _ => false
  end.

Fixpoint trimStart (s : string) : string :=
  match s with
  | String c rest => if isWhiteSpace c then trimStart rest else s
  | EmptyString => s
  end.

(** The value of a code unit as a digit: 0-9, then a-z and A-Z for 10-35. *)
Definition digitValue (c : ascii) : option Z :=
  let n := Z.of_nat (nat_of_ascii c) in
  if (48 <=? n) && (n <=? 57) then Some (n - 48)
  else if (97 <=? n) && (n <=? 122) then Some (n - 87)
  else if (65 <=? n) && (n <=? 90) then Some (n - 55)
  else None.

Definition radixDigit (R : Z) (c : ascii) : option Z :=
  match digitValue c with
  | Some d => if d <? R then Some d else None
  | None => None
  end.

(** The mathematical value of the longest prefix of radix-[R] digits,
    [acc] being the value read so far ([None]: no digit yet). *)
Fixpoint digitsPrefix (R : Z) (s : string) (acc : option Z) : option Z :=
  match s with
  | String c rest =>
      match radixDigit R c with
      | Some d => digitsPrefix R rest (Some (R * default 0 acc + d))
      | None => acc
      end
  | EmptyString => acc
  end.

(** [parseInt] with no radix argument, once its argument is a string:
    leading white space is skipped, a sign is read, a [0x]/[0X] prefix
    selects radix 16 (radix 10 otherwise), and the longest digit prefix is
    the value, rounded to the nearest double whatever the number of digits
    (as the engine of Node.js does); NaN when there is no digit, [-0] for a
    zero with a minus sign. *)
Definition parseIntOfString (input : string) : number :=
  let trimmed := trimStart input in
  let '(negative, unsigned) :=
    match trimmed with
    | String "-" rest => (true, rest)
    | String "+" rest => (false, rest)
    | _ => (false, trimmed)
    end in
  let '(R, digits) :=
    match unsigned with
    | String "0" (String "x" rest) => (16, rest)
    | String "0" (String "X" rest) => (16, rest)
    | _ => (10, unsigned)
    end in
  match digitsPrefix R digits None with
  | Some mathInt =>
      if mathInt =? 0 then Zero negative
      else ofZ (if negative then - mathInt else mathInt)
  | None => NaN
  end.

(** [parseInt(v)] on a property of [req.query]: the argument is first
    converted to a string, which can throw. *)
Definition parseInt (v : option value) : outcome number :=
  match ToString v with
  | Resolved input => Resolved (parseIntOfString input)
  | Rejected e => Rejected e
  end.

(** [v === s] for a string literal [s]: only a string is ever strictly
    equal to a string. *)
Definition strictEquals (v : option value) (s : string) : bool :=
  match v with
  | Some (Str t) => String.eqb t s
  | _ => false
  end.

(** *** String methods *)

(** [String.prototype.toLowerCase] on code units below 256: A-Z and the
    capital letters of 192-222 (all but the multiplication sign, 215) move
    up by 32, everything else stays. *)
Definition lowerChar (c : ascii) : ascii :=
  let n := nat_of_ascii c in
  if ((65 <=? n)%nat && (n <=? 90)%nat)
     || ((192 <=? n)%nat && (n <=? 222)%nat && negb (n =? 215)%nat)
  then ascii_of_nat (n + 32) else c.

Fixpoint toLowerCase (s : string) : string :=
  match s with
  | String c rest => String (lowerChar c) (toLowerCase rest)
  | EmptyString => EmptyString
  end.

(** [v.toLowerCase()] on a query value: a string has the method; on an
    array or an object the property is missing or is no function, and the
    call throws a TypeError. *)
Definition callToLowerCase (v : value) : outcome string :=
  match v with
  | Str s => Resolved (toLowerCase s)
  | Arr _ | Obj _ =>
      Rejected (Error "req.query.populate.toLowerCase is not a function")
  end.

(** [s.split(sep)] for a one-character separator: the pieces between the
    separators, empty pieces included; the empty string splits into one
    empty piece. *)
Fixpoint split (sep : ascii) (s : string) : list string :=
  match s with
  | EmptyString => [EmptyString]
  | String c rest =>
      if Ascii.eqb c sep then EmptyString :: split sep rest
      else match split sep rest with
           | piece :: pieces => String c piece :: pieces
           | [] => [String c EmptyString]
           end
  end.

End Js.

(* ===================================================================== *)
(** ** Requests, responses and the persistence gateway *)
(* ===================================================================== *)

(** The associations a query can include ([db.Course] is the only model the
    controller ever names) and the two sort directions. *)
Inductive association : Type := Course.
Inductive direction : Type := ASC | DESC.

(** The options object handed to [findAll]. *)
Record findOptions : Type := FindOptions {
  limit : Js.number;
  offset : Js.number;
  order : list (string * direction);
  include : list association
}.

Section Controller.

(** The controller never looks inside a model instance or inside [req.body]:
    both are passed on as they come. *)
Context {instance body : Type}.

(** [req]: the parsed query string (a string, an array or an object under
    each key), the route parameters (strings), and [req.body], which is
    whatever the body parser left. *)
Record request : Type := Request {
  query : gmap string Js.value;
  params : gmap string string;
  req_body : body
}.

(** The values given to [res.json]. *)
#[warnings="-register-all"]
Inductive json : Type :=
| JNum (n : Js.number)
| JStr (s : string)
| JArr (items : list json)
| JObj (fields : list (string * json))
| JInstance (t : instance).

(** What the client receives. *)
Record response : Type := Response {
  status : Z;
  payload : json
}.

(** [res]: the status code set so far (200 until [res.status] is called) and
    the responses written. *)
Record res_state : Type := Res {
  statusCode : Z;
  sent : list response
}.

Definition fresh_res : res_state := {| statusCode := 200; sent := [] |}.

(** The calls the controller makes on the gateway: the static methods of
    [db.Teacher] and the methods of a Teacher instance.  [findByPk] takes the
    route parameter as it is ([undefined] when the route has none) and the
    associations of its [include] option. *)
Inductive gwcall : Type :=
| Teacher_create (values : body)
| Teacher_count
| Teacher_findAll (options : findOptions)
| Teacher_findByPk (id : option string) (incl : list association)
| instance_update (t : instance) (values : body)
| instance_destroy (t : instance).

(** The type each call's promise resolves to.  [count] resolves to a
    Number.  [update] changes the instance in place and resolves to it: the
    value here is the instance after the change. *)
Definition gwret (c : gwcall) : Type :=
  match c with
  | Teacher_create _ => instance
  | Teacher_count => Js.number
  | Teacher_findAll _ => list instance
  | Teacher_findByPk _ _ => option instance
  | instance_update _ _ => instance
  | instance_destroy _ => unit
  end.

(** A mutating call: one that writes to the database. *)
Definition mutating (c : gwcall) : bool :=
  match c with
  | Teacher_create _ | instance_update _ _ | instance_destroy _ => true
  | Teacher_count | Teacher_findAll _ | Teacher_findByPk _ _ => false
  end.

(** *** Handler programs

    The body of an async handler: it ends (normally, or by throwing), awaits
    a gateway call and goes on with its outcome, or calls [res.status] /
    [res.json] and goes on. *)
Inductive prog (A : Type) : Type :=
| Done (o : outcome A)
| Await (c : gwcall) (k : outcome (gwret c) -> prog A)
| SetStatus (code : Z) (k : prog A)
| SendJson (j : json) (k : prog A).
Arguments Done {A} o.
Arguments Await {A} c k.
Arguments SetStatus {A} code k.
Arguments SendJson {A} j k.

Definition ret {A} (a : A) : prog A := Done (Resolved a).

(** An expression evaluated in the handler: its value, or what it throws. *)
Definition js {A} (o : outcome A) : prog A := Done o.

(** [await c]: the value the promise resolves to; a rejection is thrown. *)
Definition await (c : gwcall) : prog (gwret c) := Await c Done.

(** [res.status(code)] and [res.json(j)]. *)
Definition res_status (code : Z) : prog unit := SetStatus code (ret tt).
Definition res_json (j : json) : prog unit := SendJson j (ret tt).

(** Sequencing: what follows runs only when what precedes did not throw. *)
Fixpoint bind {A B} (p : prog A) (f : A -> prog B) : prog B :=
  match p with
  | Done (Resolved a) => f a
  | Done (Rejected e) => Done (Rejected e)
  | Await c k => Await c (fun o => bind (k o) f)
  | SetStatus code k => SetStatus code (bind k f)
  | SendJson j k => SendJson j (bind k f)
  end.

(** [try { p } catch (err) { handler err }]. *)
Fixpoint try_catch {A} (p : prog A) (handler : error -> prog A) : prog A :=
  match p with
  | Done (Resolved a) => Done (Resolved a)
  | Done (Rejected e) => handler e
  | Await c k => Await c (fun o => try_catch (k o) handler)
  | SetStatus code k => SetStatus code (try_catch k handler)
  | SendJson j k => SendJson j (try_catch k handler)
  end.

End Controller.

Arguments request : clear implicits.
Arguments json : clear implicits.
Arguments response : clear implicits.
Arguments res_state : clear implicits.
Arguments gwcall : clear implicits.
Arguments prog : clear implicits.
Arguments Done {instance body A} o.
Arguments Await {instance body A} c k.
Arguments SetStatus {instance body A} code k.
Arguments SendJson {instance body A} j k.

Declare Scope prog_scope.
Delimit Scope prog_scope with prog.
Notation "x <- p ;; q" := (bind p (fun x => q))
  (at level 100, p at next level, q at level 200, right associativity) : prog_scope.
Notation "p ;; q" := (bind p (fun _ => q))
  (at level 100, q at level 200, right associativity) : prog_scope.

(* ===================================================================== *)
(** ** The handlers *)
(* ===================================================================== *)

Section Handlers.

Context {instance body : Type}.
Local Open Scope prog_scope.

Let handler : Type := prog instance body unit.

(** [createTeacher] (lines 32-39). *)
Definition createTeacher (req : request body) : handler :=
  try_catch
    (teacher <- await (Teacher_create (req_body req)) ;;
     res_status 201 ;;
     res_json (JInstance teacher))
    (fun err =>
       res_status 500 ;;
       res_json (JObj [("error", JStr (message err))])).

(** [getAllTeachers] (lines 111-142).  The four constants are computed and
    the count is awaited before the [try] block is entered: what lines
    113-117 throw is not caught. *)
Definition getAllTeachers (req : request body) : handler :=
  parsedLimit <- js (Js.parseInt (query req !! "limit")) ;;
  let limit := Js.orDefault parsedLimit (Js.ofZ 10) in
  parsedPage <- js (Js.parseInt (query req !! "page")) ;;
  let page := Js.orDefault parsedPage (Js.ofZ 1) in
  let sort := if Js.strictEquals (query req !! "sort") "desc" then DESC else ASC in
  populate <- js (match query req !! "populate" with
                  | Some v => if Js.truthyValue v then Js.callToLowerCase v else Resolved ""
                  | None => Resolved ""
                  end) ;;
  total <- await Teacher_count ;;
  try_catch
    (teachers <- await (Teacher_findAll {|
        limit := limit;
        offset := Js.mul (Js.sub page (Js.ofZ 1)) limit;
        order := [("id", sort)];
        include :=
          if Js.truthyString populate then
            Js.filterBoolean
              (map (fun model => if String.eqb model "course" then Some Course else None)
                   (Js.split "," populate))
          else []
      |}) ;;
     res_json
       (JObj [("meta", JObj [("total", JNum total);
                             ("page", JNum page);
                             ("totalPages", JNum (Js.ceil (Js.div total limit)))]);
              ("data", JArr (map JInstance teachers))]))
    (fun err =>
       res_status 500 ;;
       res_json (JObj [("error", JStr (message err))])).

(** [getTeacherById] (lines 161-169). *)
Definition getTeacherById (req : request body) : handler :=
  try_catch
    (teacher <- await (Teacher_findByPk (params req !! "id") [Course]) ;;
     match teacher with
     | None =>
         res_status 404 ;;
         res_json (JObj [("message", JStr "Not found")])
     | Some t => res_json (JInstance t)
     end)
    (fun err =>
       res_status 500 ;;
       res_json (JObj [("error", JStr (message err))])).

(** [updateTeacher] (lines 197-206).  [teacher.update] changes [teacher] in
    place, so the instance serialised afterwards is the one it resolved to. *)
Definition updateTeacher (req : request body) : handler :=
  try_catch
    (teacher <- await (Teacher_findByPk (params req !! "id") []) ;;
     match teacher with
     | None =>
         res_status 404 ;;
         res_json (JObj [("message", JStr "Not found")])
     | Some t =>
         updated <- await (instance_update t (req_body req)) ;;
         res_json (JInstance updated)
     end)
    (fun err =>
       res_status 500 ;;
       res_json (JObj [("error", JStr (message err))])).

(** [deleteTeacher] (lines 223-231). *)
Definition deleteTeacher (req : request body) : handler :=
  try_catch
    (teacher <- await (Teacher_findByPk (params req !! "id") []) ;;
     match teacher with
     | None =>
         res_status 404 ;;
         res_json (JObj [("message", JStr "Not found")])
     | Some t =>
         await (instance_destroy t) ;;
         res_json (JObj [("message", JStr "Deleted")])
     end)
    (fun err =>
       res_status 500 ;;
       res_json (JObj [("error", JStr (message err))])).

End Handlers.
(* ===================================================================== *)
(** ** Running a handler against a gateway *)
(* ===================================================================== *)

Section Run.

Context {instance body store : Type}.

(** A gateway implementation: how each call settles on a given store, and
    the store it leaves. *)
Definition gateway : Type :=
  forall c : gwcall instance body, store -> outcome (@gwret instance body c) * store.

(** What one request did: how the handler's promise settled, the store
    afterwards, the state of [res], and the gateway calls in the order they
    were made. *)
Record run (A : Type) : Type := Run {
  result : outcome A;
  db_after : store;
  res_after : res_state instance;
  calls : list (gwcall instance body)
}.
Arguments result {A} r.
Arguments db_after {A} r.
Arguments res_after {A} r.
Arguments calls {A} r.

Fixpoint exec {A} (gw : gateway) (p : prog instance body A)
    (db : store) (res : res_state instance) (log : list (gwcall instance body)) : run A :=
  match p with
  | Done o => {| result := o; db_after := db; res_after := res; calls := log |}
  | Await c k =>
      let '(o, db') := gw c db in
      exec gw (k o) db' res (log ++ [c])
  | SetStatus code k =>
      exec gw k db {| statusCode := code; sent := sent res |} log
  | SendJson j k =>
      exec gw k db
        {| statusCode := statusCode res;
           sent := sent res ++ [{| status := statusCode res; payload := j |}] |}
        log
  end.

(** One request: the handler starts with a response object of its own. *)
Definition handle (gw : gateway) (h : prog instance body unit) (db : store) : run unit :=
  exec gw h db fresh_res [].

(** The responses a request wrote. *)
Definition responses (r : run unit) : list (response instance) := sent (res_after r).

End Run.

Arguments gateway : clear implicits.
Arguments run : clear implicits.
Arguments result {instance body store A} r.
Arguments db_after {instance body store A} r.
Arguments res_after {instance body store A} r.
Arguments calls {instance body store A} r.

(* ===================================================================== *)
(** ** The persistence gateway, in memory *)
(* ===================================================================== *)

(** The models of [models/index.js] and the ORM under them are not part of
    the controller's file.  This module gives the gateway the controller is
    written against, as section 6 of the specification states its contract,
    over a table held in memory. *)
Module Mem.

(** Modelled from the spec: the columns of the Teacher entity besides its
    key (section 3), absent from the sources: [name] and [department]. *)
Record attrs : Type := Attrs {
  name : string;
  department : string
}.

(** Modelled from the spec: the Course entity (section 3), absent from the
    sources; of its fields only the link to its teacher matters here. *)
Record course : Type := CourseRow {
  course_id : Z;
  teacherId : Z
}.

(** Modelled from the spec: a Teacher as the gateway hands it out: the
    surrogate integer key, the columns, and the courses when the query
    included them (sections 3, 4.1 and 6). *)
Record instance : Type := Instance {
  id : Z;
  columns : attrs;
  courses : option (list course)
}.

(** Modelled from the spec: the database behind the gateway: the teachers by
    key, the courses, and the next key to hand out (section 3, "generated on
    creation"). *)
Record store : Type := Store {
  teachers : gmap Z attrs;
  course_rows : list course;
  next_id : Z
}.

(** Modelled from the spec: the database before any teacher was created
    (section 8: the first teacher created gets the key 1). *)
Definition empty : store :=
  {| teachers := ∅; course_rows := []; next_id := 1 |}.

(** Modelled from the spec: eager loading of the Course collection
    (glossary, "Populate"): the courses of the teacher when [Course] is among
    the associations asked for. *)
Definition load (db : store) (incl : list association) (r : Z * attrs) : instance :=
  {| id := r.1;
     columns := r.2;
     courses :=
       match incl with
       | [] => None
       | Course :: _ =>
           Some (filter (fun c => teacherId c = r.1) (course_rows db))
       end |}.

(** Modelled from the spec: the order of the rows by identity, absent from
    the sources (section 4.1, "ordered by entity identity"). *)
Definition byId (a b : Z * attrs) : Prop := a.1 <= b.1.

#[global] Instance byId_dec : RelDecision byId :=
  fun a b => Z.le_dec a.1 b.1.

(** Modelled from the spec: the rows of the table in ascending identity
    order (section 4.1), absent from the sources. *)
Definition ascending (db : store) : list (Z * attrs) :=
  merge_sort byId (map_to_list (teachers db)).

(** Modelled from the spec: the rows as a query orders them, absent from the
    sources: descending when the first [order] entry asks so, ascending
    otherwise (section 4.1, "ascending or descending per sort"). *)
Definition ordered (db : store) (ord : list (string * direction)) : list (Z * attrs) :=
  match ord with
  | (_, DESC) :: _ => reverse (ascending db)
  | _ => ascending db
  end.

(** Modelled from the spec: a route parameter names the key it is the
    decimal form of ("gateway performs lookup as given"); anything else
    names no row. *)
Fixpoint readKey (s : string) (acc : option Z) : option Z :=
  match s with
  | EmptyString => acc
  | String c rest =>
      match Js.radixDigit 10 c with
      | Some d => readKey rest (Some (10 * default 0 acc + d))
      | None => None
      end
  end.

(** Modelled from the spec: the key a route parameter names, absent from
    the sources; a missing parameter names none. *)
Definition keyOf (param : option string) : option Z :=
  match param with
  | Some s => readKey s None
  | None => None
  end.

(** Modelled from the spec: partial merge (section 3 and glossary, "Partial
    update"): the fields present in the values replace the row's, the
    others stay. *)
Definition patch (values : gmap string string) (a : attrs) : attrs :=
  {| name := default (name a) (values !! "name");
     department := default (department a) (values !! "department") |}.

(** Modelled from the spec: [create(fields) -> T | throws]; [name] and
    [department] are required (section 3), the key is generated. *)
Definition create (values : gmap string string) (db : store) : outcome instance * store :=
  match values !! "name", values !! "department" with
  | Some n, Some d =>
      let a := {| name := n; department := d |} in
      (Resolved {| id := next_id db; columns := a; courses := None |},
       {| teachers := <[next_id db := a]> (teachers db);
          course_rows := course_rows db;
          next_id := next_id db + 1 |})
  | _, _ => (Rejected (Error "notNull Violation"), db)
  end.

(** Modelled from the spec: [count() -> integer], the full table count. *)
Definition count (db : store) : outcome Js.number * store :=
  (Resolved (Js.ofZ (Z.of_nat (size (teachers db)))), db).

(** Modelled from the spec: [findAll({limit, offset, orderBy, include}) ->
    list<T>]: [limit] rows from position [offset] of the ordered table.  A
    limit or an offset that is no integer, or a negative one, is a malformed
    query (section 7). *)
Definition findAll (options : findOptions) (db : store) : outcome (list instance) * store :=
  match Js.toZ (limit options), Js.toZ (offset options) with
  | Some l, Some o =>
      if (l <? 0) || (o <? 0)
      then (Rejected (Error "malformed query"), db)
      else
        (Resolved
           (load db (include options) <$>
              take (Z.to_nat l) (drop (Z.to_nat o) (ordered db (order options)))),
         db)
  | _, _ => (Rejected (Error "malformed query"), db)
  end.

(** Modelled from the spec: [findByKey(id, {include}) -> T | null]. *)
Definition findByPk (param : option string) (incl : list association) (db : store)
    : outcome (option instance) * store :=
  (Resolved
     (k ← keyOf param; a ← teachers db !! k; Some (load db incl (k, a))),
   db).

(** Modelled from the spec: [update(instance, fields) -> T | throws]
    (partial merge); the identity is not a field that can change. *)
Definition update (t : instance) (values : gmap string string) (db : store)
    : outcome instance * store :=
  (Resolved {| id := id t; columns := patch values (columns t); courses := courses t |},
   {| teachers := alter (patch values) (id t) (teachers db);
      course_rows := course_rows db;
      next_id := next_id db |}).

(** Modelled from the spec: [destroy(instance) -> void | throws], a hard
    delete (section 3). *)
Definition destroy (t : instance) (db : store) : outcome unit * store :=
  (Resolved tt,
   {| teachers := delete (id t) (teachers db);
      course_rows := course_rows db;
      next_id := next_id db |}).

(** Modelled from the spec: the gateway of section 6 as a whole. *)
Definition gw : gateway instance (gmap string string) store :=
  fun c =>
    match c with
    | Teacher_create values => create values
    | Teacher_count => count
    | Teacher_findAll options => findAll options
    | Teacher_findByPk param incl => findByPk param incl
    | instance_update t values => update t values
    | instance_destroy t => destroy t
    end.

(** Modelled from the spec: the gateway when the database cannot be reached
    (section 7, "connectivity failure"): every call is rejected and nothing
    is stored. *)
Definition unreachable : gateway instance (gmap string string) store :=
  fun c db => (Rejected (Error "connect ECONNREFUSED"), db).

End Mem.

(* ===================================================================== *)
(** ** Vocabulary of the statements *)
(* ===================================================================== *)

(** The body sent with a 404 and with a 500. *)
Definition notFound {instance} : response instance :=
  {| status := 404; payload := JObj [("message", JStr "Not found")] |}.

Definition serverError {instance} (e : error) : response instance :=
  {| status := 500; payload := JObj [("error", JStr (message e))] |}.

(** The four constants [getAllTeachers] computes from the query (lines
    113-116). *)
Record locals : Type := Locals {
  limitOf : Js.number;
  pageOf : Js.number;
  sortOf : direction;
  populateOf : string
}.

(** Lines 113-116 and the options handed to [findAll] (lines 120-128), named
    so that the statements below can speak of them; [getAllTeachers_run]
    ties them to the handler. *)
Section ListConstants.

Context {body : Type}.
Implicit Types req : request body.

(** The constants of a request, or what lines 113-116 throw. *)
Definition localsOf req : outcome locals :=
  match Js.parseInt (query req !! "limit") with
  | Rejected e => Rejected e
  | Resolved parsedLimit =>
      match Js.parseInt (query req !! "page") with
      | Rejected e => Rejected e
      | Resolved parsedPage =>
          match
            match query req !! "populate" with
            | Some v => if Js.truthyValue v then Js.callToLowerCase v else Resolved ""
            | None => Resolved ""
            end
          with
          | Rejected e => Rejected e
          | Resolved lowered =>
              Resolved
                {| limitOf := Js.orDefault parsedLimit (Js.ofZ 10);
                   pageOf := Js.orDefault parsedPage (Js.ofZ 1);
                   sortOf :=
                     if Js.strictEquals (query req !! "sort") "desc" then DESC else ASC;
                   populateOf := lowered |}
          end
      end
  end.

Definition includeOf (c : locals) : list association :=
  if Js.truthyString (populateOf c) then
    Js.filterBoolean
      (map (fun model => if String.eqb model "course" then Some Course else None)
           (Js.split "," (populateOf c)))
  else [].

Definition optionsOf (c : locals) : findOptions :=
  {| limit := limitOf c;
     offset := Js.mul (Js.sub (pageOf c) (Js.ofZ 1)) (limitOf c);
     order := [("id", sortOf c)];
     include := includeOf c |}.

(** A query parameter that is absent or a string, as a parameter given at
    most once without brackets is. *)
Definition plain (v : option Js.value) : Prop :=
  match v with
  | None | Some (Js.Str _) => True
  | Some _ => False
  end.

End ListConstants.

(** The [findAll] queries among a request's gateway calls. *)
Definition queries {instance body store A} (r : run instance body store A) : list findOptions :=
  omap (fun c => match c with Teacher_findAll o => Some o | _ => None end) (calls r).

(** The fallback of [limit] and [page]: the default stands in for NaN and
    for the two zeros, every other number is kept. *)
Definition fallback (n : Js.number) (d : Z) : Js.number :=
  match n with
  | Js.NaN | Js.Zero _ => Js.ofZ d
  | Js.Infinity _ | Js.Finite _ _ => n
  end.

(** The code units that are white space to [parseInt], and the strings made
    of them. *)
Definition whiteSpaceUnits : list nat :=
  [9; 10; 11; 12; 13; 32; 160]%nat.

Definition blank (s : string) : bool :=
  forallb (fun c => existsb (Nat.eqb (nat_of_ascii c)) whiteSpaceUnits)
          (list_ascii_of_string s).

(** The decimal digits; a text that does not go on with one. *)
Definition decimalDigit (c : ascii) : bool :=
  existsb (Ascii.eqb c) (list_ascii_of_string "0123456789").

Definition endsNumeral (s : string) : bool :=
  match s with
  | String c _ => negb (decimalDigit c)
  | EmptyString => true
  end.

(** What it is to read a text as [parseInt] does when the text holds a
    decimal numeral or none: white space before the numeral is skipped; the
    decimal form of a non-zero integer, or of a positive one after a plus
    sign, is read as the double nearest to that integer, whatever follows
    the numeral; a zero is read with its sign; and a text in which no digit
    follows the white space and the sign is read as NaN. *)
Definition readsDecimal (read : string -> Js.number) : Prop :=
  (forall ws s, blank ws = true -> read (ws +:+ s) = read s) /\
  (forall z rest, z <> 0 -> endsNumeral rest = true ->
     read (pretty z +:+ rest) = Js.ofZ z) /\
  (forall z rest, 0 < z -> endsNumeral rest = true ->
     read (String "+" (pretty z +:+ rest)) = Js.ofZ z) /\
  read "0" = Js.Zero false /\
  read "-0" = Js.Zero true /\
  read "" = Js.NaN /\
  (forall c rest, decimalDigit c = false ->
     read (String "+" (String c rest)) = Js.NaN /\
     read (String "-" (String c rest)) = Js.NaN /\
     (blank (String c "") = false -> c <> "+"%char -> c <> "-"%char ->
      read (String c rest) = Js.NaN)).

(** The characters a decimal numeral without sign can start with. *)
Definition leadingDigit (c : ascii) : bool :=
  match Js.digitValue c with
  | Some d => (1 <=? d) && (d <=? 9)
  | None => false
  end.





(** Equality of strings up to case, and the tokens of a [populate]
    parameter that ask for the courses. *)
Definition eqIgnoreCase (a b : string) : bool :=
  String.eqb (Js.toLowerCase a) (Js.toLowerCase b).

Definition courseTokens (v : option Js.value) : list string :=
  match v with
  | Some (Js.Str s) => filter (fun token => eqIgnoreCase token "course" = true) (Js.split "," s)
  | _ => []
  end.

(** A gateway honours [limit] when a [findAll] whose limit is a natural
    number never resolves to more rows than that. *)
Definition honoursLimit {instance body store} (gw : gateway instance body store) : Prop :=
  forall options db rows db' L,
    gw (Teacher_findAll options) db = (Resolved rows, db') ->
    Js.toZ (limit options) = Some L ->
    0 <= L ->
    Z.of_nat (length rows) <= L.

(** A gateway whose reads are reads: a call that is not mutating leaves the
    store as it found it. *)
Definition readsPreserve {instance body store} (gw : gateway instance body store) : Prop :=
  forall c db, mutating c = false -> snd (gw c db) = db.

(** The two error envelopes of the controller: a 404 carries
    [{ message: 'Not found' }], a 500 carries [{ error: <string> }]; the
    other statuses the controller uses are 200 and 201. *)
Definition envelope {instance} (r : response instance) : Prop :=
  (status r = 200) \/
  (status r = 201) \/
  (status r = 404 /\ payload r = JObj [("message", JStr "Not found")]) \/
  (status r = 500 /\ exists msg, payload r = JObj [("error", JStr msg)]).

(** The status codes of the responses a request wrote. *)
Definition statuses {instance body store} (r : run instance body store unit) : list Z :=
  map status (responses r).

(** The safe integers, those below [2^53] in size: each of them is a
    double, [canon] giving its mantissa and exponent when it is not zero. *)
Definition safe (z : Z) : Prop := Z.abs z < 2 ^ 53.

Definition canon (z : Z) : Js.number :=
  Js.Finite (z * 2 ^ (52 - Z.log2 (Z.abs z))) (Z.log2 (Z.abs z) - 52).

(** The ceiling of [a / b] for integers, [b] positive. *)
Definition ceilDiv (a b : Z) : Z := - ((- a) / b).

(** The doubles of the Standard Library ([SpecFloat], precision 53 and
    maximal exponent 1024) to compare the arithmetic above with. *)
Module Ieee.
Import Floats.SpecFloat.

Definition toSF (x : Js.number) : spec_float :=
  match x with
  | Js.NaN => S754_nan
  | Js.Infinity s => S754_infinity s
  | Js.Zero s => S754_zero s
  | Js.Finite (Zpos m) e => S754_finite false m e
  | Js.Finite (Zneg m) e => S754_finite true m e
  | Js.Finite 0 _ => S754_nan
  end.

Definition same (a b : spec_float) : bool :=
  match a, b with
  | S754_nan, S754_nan => true
  | S754_zero s, S754_zero t | S754_infinity s, S754_infinity t => Bool.eqb s t
  | S754_finite s m e, S754_finite t n f => Bool.eqb s t && Pos.eqb m n && Z.eqb e f
  | _, _ => false
  end.

(** Integers around the powers of two where the rounding changes, and
    doubles of every kind. *)
Definition integers : list Z :=
  [0; 1; -1; 2; 3; -5; 7; 10; 1000; 4503599627370495; 4503599627370497;
   9007199254740991; 9007199254740992; 9007199254740993; 9007199254740994;
   9007199254740995; -9007199254740993; 18014398509481985; 18014398509481987;
   2 ^ 62 + 2 ^ 9; 2 ^ 62 + 2 ^ 9 + 1; 2 ^ 62 + 3 * 2 ^ 9; 10 ^ 22; 10 ^ 23;
   10 ^ 308; 2 ^ 1024 - 2 ^ 970 - 1; 2 ^ 1024 - 2 ^ 970; 2 ^ 1024; 10 ^ 309;
   - 10 ^ 309].

Definition doubles : list Js.number :=
  [Js.NaN; Js.Infinity false; Js.Infinity true; Js.Zero false; Js.Zero true;
   Js.Finite (2 ^ 52 + 1) (-52); Js.Finite (2 ^ 53 - 1) (-53);
   Js.Finite 6004799503160661 (-54); Js.Finite (-7205759403792794) (-56);
   Js.Finite (2 ^ 53 - 1) 40; Js.Finite (- (2 ^ 52)) (-120)]
  ++ map Js.ofZ (firstn 22 integers).

(** The ends of the range: the least subnormal double, the opposite of the
    least normal one, and the greatest double. *)
Definition extremes : list Js.number :=
  [Js.Finite 1 (-1074); Js.Finite (- (2 ^ 52)) (-1074); Js.Finite (2 ^ 53 - 1) 971].

Definition pairs : list (Js.number * Js.number) :=
  list_prod doubles doubles
  ++ list_prod extremes (extremes ++ firstn 5 doubles)
  ++ list_prod (firstn 5 doubles) extremes.

Definition agree (f : Js.number -> Js.number -> Js.number)
    (g : spec_float -> spec_float -> spec_float) : bool :=
  forallb (fun p => same (toSF (f (fst p) (snd p))) (g (toSF (fst p)) (toSF (snd p))))
          pairs.

End Ieee.

(** Requests and stores to run the handlers on. *)
Module Sample.


(** A request whose query parameters are all strings. *)
Definition request (q p b : list (string * string)) : request (gmap string string) :=
  {| query := list_to_map (prod_map id Js.Str <$> q);
     params := list_to_map p;
     req_body := list_to_map b |}.

Definition alice : Mem.attrs := {| Mem.name := "Alice"; Mem.department := "Math" |}.
Definition bob : Mem.attrs := {| Mem.name := "Bob"; Mem.department := "Art" |}.
Definition carol : Mem.attrs := {| Mem.name := "Carol"; Mem.department := "Law" |}.

(** Three teachers, keys 1 to 3. *)
Definition school : Mem.store :=
  {| Mem.teachers := <[1 := alice]> (<[2 := bob]> (<[3 := carol]> ∅));
     Mem.course_rows := [{| Mem.course_id := 1; Mem.teacherId := 2 |}];
     Mem.next_id := 4 |}.

(** The numeral of [10^309]: a one and 309 zeros. *)
Definition googolish : string := String "1" (string_of_list_ascii (repeat "0"%char 309)).

End Sample.

(* ===================================================================== *)
(** ** Arithmetic of the doubles *)
(* ===================================================================== *)

Module NumberFacts.
Import Js.

Lemma pow2_pos k : 0 <= k -> 0 < 2 ^ k.
Proof. intros. apply Z.pow_pos_nonneg; lia. Qed.

Lemma floorLog2_spec n d :
  0 < n -> 0 < d ->
  let f := floorLog2 n d in
  (0 <= f /\ d * 2 ^ f <= n < 2 * (d * 2 ^ f)) \/
  (f < 0 /\ d <= n * 2 ^ (- f) < 2 * d).
Proof.
  intros Hn Hd. cbv zeta. unfold floorLog2.
  destruct (Z.log2_spec n Hn) as [Ha1 Ha2].
  destruct (Z.log2_spec d Hd) as [Hb1 Hb2].
  pose proof (Z.log2_nonneg n) as Ha0. pose proof (Z.log2_nonneg d) as Hb0.
  set (a := Z.log2 n) in *. set (b := Z.log2 d) in *.
  rewrite !Z.pow_succ_r in * by lia.
  destruct (Z.leb_spec 0 (a - b)) as [Hl|Hl].
  - assert (Hab : 2 ^ a = 2 ^ b * 2 ^ (a - b))
      by (rewrite <- Z.pow_add_r by lia; f_equal; lia).
    pose proof (pow2_pos (a - b) Hl) as Hp. pose proof (pow2_pos b Hb0) as Hpb.
    destruct (Z.leb_spec (d * 2 ^ (a - b)) n) as [Ht|Ht].
    + left. split; [lia|]. split; [lia|]. nia.
    + destruct (Z.eq_dec (a - b) 0) as [H0|H0].
      * right. split; [lia|]. replace (- (a - b - 1)) with 1 by lia.
        rewrite H0 in *. change (2 ^ 0) with 1 in *. change (2 ^ 1) with 2. nia.
      * left. split; [lia|].
        assert (Hs : 2 ^ (a - b) = 2 * 2 ^ (a - b - 1))
          by (rewrite <- Z.pow_succ_r by lia; f_equal; lia).
        pose proof (pow2_pos (a - b - 1) ltac:(lia)). nia.
  - assert (Hab : 2 ^ b = 2 ^ a * 2 ^ (- (a - b)))
      by (rewrite <- Z.pow_add_r by lia; f_equal; lia).
    pose proof (pow2_pos (- (a - b)) ltac:(lia)) as Hp. pose proof (pow2_pos a Ha0) as Hpa.
    assert (Hs : 2 ^ (- (a - b - 1)) = 2 * 2 ^ (- (a - b)))
      by (rewrite <- Z.pow_succ_r by lia; f_equal; lia).
    destruct (Z.leb_spec d (n * 2 ^ (- (a - b)))) as [Ht|Ht].
    + right. split; [lia|]. nia.
    + right. split; [lia|]. rewrite Hs. nia.
Qed.

Lemma floorLog2_multiple z d :
  0 < z -> 0 < d -> floorLog2 (z * d) d = Z.log2 z.
Proof.
  intros Hz Hd.
  destruct (floorLog2_spec (z * d) d ltac:(nia) Hd) as [[Hf [H1 H2]]|[Hf [H1 H2]]].
  - apply eq_sym, Z.log2_unique; [exact Hf|].
    rewrite Z.pow_succ_r by lia.
    pose proof (pow2_pos _ Hf). split; nia.
  - exfalso.
    assert (Hp : 2 <= 2 ^ (- floorLog2 (z * d) d)).
    { change 2 with (2 ^ 1) at 1. apply Z.pow_le_mono_r; lia. }
    set (P := 2 ^ (- floorLog2 (z * d) d)) in *.
    assert (2 <= z * P) by nia.
    assert (2 * d <= z * P * d) by nia.
    replace (z * d * P) with (z * P * d) in H2 by ring. lia.
Qed.

(** The double of a non-zero integer below 2^53 in magnitude. *)
Lemma log2_below z : 0 < z -> z < 2 ^ 53 -> 0 <= Z.log2 z <= 52.
Proof.
  intros Hz Hlt. split; [apply Z.log2_nonneg|].
  assert (Z.log2 z < 53) by (apply Z.log2_lt_pow2; lia). lia.
Qed.

Lemma roundPos_exact s z d :
  0 < z -> z < 2 ^ 53 -> 0 < d ->
  roundPos s (z * d) d = canon (if s then - z else z).
Proof.
  intros Hz Hlt Hd. unfold roundPos, canon.
  rewrite (floorLog2_multiple z d Hz Hd).
  pose proof (log2_below z Hz Hlt) as Hl.
  destruct (Z.log2_spec z Hz) as [Hz1 Hz2].
  replace (Z.abs (if s then - z else z)) with z by (destruct s; lia).
  set (l := Z.log2 z) in *.
  rewrite Z.max_l by lia.
  assert (Hk : 0 < 2 ^ (52 - l)) by (apply pow2_pos; lia).
  assert (Hm : z * 2 ^ (52 - l) < 2 ^ 53).
  { replace 53 with (Z.succ l + (52 - l)) by lia. rewrite Z.pow_add_r by lia. nia. }
  assert (Hq : (let '(N, D) := scaled (z * d) d (l - 52) in
                (N / D = z * 2 ^ (52 - l) /\ N mod D = 0 /\ 0 < D))).
  { unfold scaled. destruct (Z.ltb_spec (l - 52) 0) as [He|He].
    - replace (- (l - 52)) with (52 - l) by lia.
      replace (z * d * 2 ^ (52 - l)) with (z * 2 ^ (52 - l) * d) by ring.
      rewrite Z.div_mul, Z.mod_mul by lia. repeat split; lia.
    - replace (l - 52) with 0 by lia. replace (52 - l) with 0 by lia.
      change (2 ^ 0) with 1. rewrite !Z.mul_1_r.
      rewrite Z.div_mul, Z.mod_mul by lia. repeat split; lia. }
  destruct (scaled (z * d) d (l - 52)) as [N D]. destruct Hq as (-> & -> & HD).
  replace (D <? 2 * 0) with false by (symmetry; apply Z.ltb_ge; lia).
  replace (D =? 2 * 0) with false by (symmetry; apply Z.eqb_neq; lia).
  cbn [orb andb].
  replace (z * 2 ^ (52 - l) =? 2 ^ 53) with false by (symmetry; apply Z.eqb_neq; lia).
  replace (z * 2 ^ (52 - l) =? 0) with false by (symmetry; apply Z.eqb_neq; lia).
  replace (971 <? l - 52) with false by (symmetry; apply Z.ltb_ge; lia).
  destruct s; f_equal; ring.
Qed.

Lemma round_exact z d :
  z <> 0 -> Z.abs z < 2 ^ 53 -> 0 < d -> round (z * d) d = canon z.
Proof.
  intros Hz Hlt Hd. unfold round.
  destruct (Z.eqb_spec (z * d) 0) as [H0|_]; [nia|].
  destruct (Z.ltb_spec 0 (z * d)) as [Hpos|Hneg].
  - rewrite (roundPos_exact false z d) by nia. reflexivity.
  - replace (- (z * d)) with (- z * d) by ring.
    rewrite (roundPos_exact true (- z) d) by nia.
    f_equal. ring.
Qed.

Lemma ofZ_canon z : z <> 0 -> Z.abs z < 2 ^ 53 -> ofZ z = canon z.
Proof.
  intros Hz Hlt. unfold ofZ.
  replace z with (z * 1) at 1 by ring. apply round_exact; lia.
Qed.

Lemma toZ_canon z : z <> 0 -> Z.abs z < 2 ^ 53 -> toZ (canon z) = Some z.
Proof.
  intros Hz Hlt. unfold toZ, canon.
  pose proof (log2_below (Z.abs z) ltac:(lia) Hlt) as Hl.
  set (l := Z.log2 (Z.abs z)) in *.
  assert (Hk : 0 < 2 ^ (52 - l)) by (apply pow2_pos; lia).
  destruct (Z.leb_spec 0 (l - 52)) as [He|He].
  - replace (l - 52) with 0 by lia. replace (52 - l) with 0 by lia.
    change (2 ^ 0) with 1. f_equal. ring.
  - replace (- (l - 52)) with (52 - l) by lia.
    rewrite Z.mod_mul by lia. cbn [Z.eqb]. rewrite Z.div_mul by lia. reflexivity.
Qed.

Lemma toZ_ofZ z : Z.abs z < 2 ^ 53 -> toZ (ofZ z) = Some z.
Proof.
  intros Hlt. destruct (Z.eq_dec z 0) as [->|Hz]; [reflexivity|].
  rewrite ofZ_canon by assumption. apply toZ_canon; assumption.
Qed.

Lemma scaled_bounds n d :
  0 < n -> 0 < d ->
  let '(N, D) := scaled n d (floorLog2 n d - 52) in
  0 < D /\ 2 ^ 52 * D <= N < 2 ^ 53 * D.
Proof.
  intros Hn Hd. unfold scaled.
  destruct (floorLog2_spec n d Hn Hd) as [[Hf [H1 H2]]|[Hf [H1 H2]]];
    set (f := floorLog2 n d) in *.
  - pose proof (pow2_pos f Hf) as Hpf.
    destruct (Z.ltb_spec (f - 52) 0) as [He|He].
    + replace (- (f - 52)) with (52 - f) by lia.
      pose proof (pow2_pos (52 - f) ltac:(lia)) as Hk.
      assert (E : 2 ^ 52 = 2 ^ f * 2 ^ (52 - f))
        by (rewrite <- Z.pow_add_r by lia; f_equal; lia).
      change (2 ^ 53) with (2 * 2 ^ 52). rewrite E.
      set (F := 2 ^ f) in *. set (K := 2 ^ (52 - f)) in *.
      split; [lia|]. split; nia.
    + pose proof (pow2_pos (f - 52) ltac:(lia)) as Hk.
      assert (E : 2 ^ f = 2 ^ 52 * 2 ^ (f - 52))
        by (rewrite <- Z.pow_add_r by lia; f_equal; lia).
      change (2 ^ 53) with (2 * 2 ^ 52). rewrite E in *.
      set (K := 2 ^ (f - 52)) in *.
      split; [nia|]. split; nia.
  - destruct (Z.ltb_spec (f - 52) 0) as [He|He]; [|lia].
    replace (- (f - 52)) with (52 + - f) by lia.
    rewrite Z.pow_add_r by lia.
    pose proof (pow2_pos (- f) ltac:(lia)) as Hk.
    change (2 ^ 53) with (2 * 2 ^ 52).
    set (P := 2 ^ (- f)) in *.
    split; [lia|]. split; nia.
Qed.

Lemma floorLog2_nonneg n d : 0 < d -> d <= n -> 0 <= floorLog2 n d.
Proof.
  intros Hd Hn.
  destruct (floorLog2_spec n d ltac:(lia) Hd) as [[Hf _]|[Hf [H1 H2]]]; [exact Hf|].
  exfalso.
  assert (Hp : 2 <= 2 ^ (- floorLog2 n d)).
  { change 2 with (2 ^ 1) at 1. apply Z.pow_le_mono_r; lia. }
  nia.
Qed.

Lemma roundPos_truthy s n d :
  0 < d -> d <= n -> truthyNumber (roundPos s n d) = true.
Proof.
  intros Hd Hn. unfold roundPos.
  pose proof (floorLog2_nonneg n d Hd Hn) as Hf.
  pose proof (scaled_bounds n d ltac:(lia) Hd) as Hb.
  rewrite Z.max_l by lia.
  destruct (scaled n d (floorLog2 n d - 52)) as [N D].
  destruct Hb as (HD & Hlo & Hhi).
  assert (Hq : 2 ^ 52 <= N / D) by (apply Z.div_le_lower_bound; lia).
  set (q := N / D) in *.
  set (up := (D <? 2 * (N mod D)) || (D =? 2 * (N mod D)) && Z.odd q).
  assert (Hm : 0 < (if up then q + 1 else q)) by (destruct up; lia).
  set (m := if up then q + 1 else q) in *.
  destruct (m =? 2 ^ 53).
  - cbn [Z.eqb]. change (2 ^ 52 =? 0) with false. cbv iota.
    destruct (971 <? _); reflexivity.
  - replace (m =? 0) with false by (symmetry; apply Z.eqb_neq; lia).
    destruct (971 <? _); reflexivity.
Qed.

Lemma ofZ_truthy z : z <> 0 -> truthyNumber (ofZ z) = true.
Proof.
  intros Hz. unfold ofZ, round.
  destruct (Z.eqb_spec z 0) as [|_]; [congruence|].
  destruct (Z.ltb_spec 0 z); apply roundPos_truthy; lia.
Qed.

Lemma canon_neg z : neg (canon z) = canon (- z).
Proof.
  unfold neg, canon. rewrite Z.abs_opp. f_equal. ring.
Qed.

Lemma pow2_split a b : 0 <= a -> 0 <= b -> 2 ^ (a + b) = 2 ^ a * 2 ^ b.
Proof. intros. apply Z.pow_add_r; assumption. Qed.

Lemma roundDyadic_exact z k :
  Z.abs z < 2 ^ 53 -> 0 <= k ->
  roundDyadic (z * 2 ^ k) (- k) = ofZ z.
Proof.
  intros Hlt Hk. unfold roundDyadic.
  pose proof (pow2_pos k Hk) as HK.
  destruct (Z.eq_dec z 0) as [->|Hz].
  - destruct (- k <? 0); reflexivity.
  - rewrite (ofZ_canon z Hz Hlt).
    destruct (Z.ltb_spec (- k) 0) as [He|He].
    + replace (- - k) with k by lia. apply round_exact; assumption.
    + replace k with 0 by lia. change (- 0) with 0. change (2 ^ 0) with 1.
      rewrite !Z.mul_1_r. replace z with (z * 1) at 1 by ring.
      apply round_exact; lia.
Qed.

Lemma add_exact a b :
  Z.abs a < 2 ^ 53 -> Z.abs b < 2 ^ 53 -> Z.abs (a + b) < 2 ^ 53 ->
  toZ (add (ofZ a) (ofZ b)) = Some (a + b).
Proof.
  intros Ha Hb Hab.
  destruct (Z.eq_dec a 0) as [->|Ha0]; [|destruct (Z.eq_dec b 0) as [->|Hb0]].
  - destruct (Z.eq_dec b 0) as [->|Hb0]; [reflexivity|].
    rewrite (ofZ_canon b Hb0 Hb).
    transitivity (toZ (canon b)); [reflexivity|].
    rewrite toZ_canon by assumption. reflexivity.
  - rewrite (ofZ_canon a Ha0 Ha).
    transitivity (toZ (canon a)); [reflexivity|].
    rewrite toZ_canon by assumption. f_equal. ring.
  - rewrite (ofZ_canon a Ha0 Ha), (ofZ_canon b Hb0 Hb). unfold canon, add.
    pose proof (log2_below (Z.abs a) ltac:(lia) Ha) as Hla.
    pose proof (log2_below (Z.abs b) ltac:(lia) Hb) as Hlb.
    set (la := Z.log2 (Z.abs a)) in *. set (lb := Z.log2 (Z.abs b)) in *.
    set (e := Z.min (la - 52) (lb - 52)).
    assert (He : e <= 0) by lia.
    replace (a * 2 ^ (52 - la) * 2 ^ (la - 52 - e) + b * 2 ^ (52 - lb) * 2 ^ (lb - 52 - e))
      with ((a + b) * 2 ^ (- e)).
    2:{ rewrite <- !Z.mul_assoc, <- !Z.pow_add_r by lia.
        replace (52 - la + (la - 52 - e)) with (- e) by lia.
        replace (52 - lb + (lb - 52 - e)) with (- e) by lia. ring. }
    replace e with (- - e) at 2 by lia.
    rewrite roundDyadic_exact by lia. apply toZ_ofZ. exact Hab.
Qed.

Lemma sub_exact a b :
  Z.abs a < 2 ^ 53 -> Z.abs b < 2 ^ 53 -> Z.abs (a - b) < 2 ^ 53 ->
  toZ (sub (ofZ a) (ofZ b)) = Some (a - b).
Proof.
  intros Ha Hb Hab. unfold sub.
  destruct (Z.eq_dec b 0) as [->|Hb0].
  - destruct (Z.eq_dec a 0) as [->|Ha0]; [reflexivity|].
    rewrite (ofZ_canon a Ha0 Ha).
    transitivity (toZ (canon a)); [reflexivity|].
    rewrite toZ_canon by assumption. f_equal. ring.
  - rewrite (ofZ_canon b Hb0 Hb), canon_neg, <- ofZ_canon by (rewrite ?Z.abs_opp; lia).
    replace (a - b) with (a + - b) by ring.
    apply add_exact; rewrite ?Z.abs_opp; assumption.
Qed.

Lemma mul_exact a b :
  Z.abs a < 2 ^ 53 -> Z.abs b < 2 ^ 53 -> Z.abs (a * b) < 2 ^ 53 ->
  toZ (mul (ofZ a) (ofZ b)) = Some (a * b).
Proof.
  intros Ha Hb Hab.
  destruct (Z.eq_dec a 0) as [->|Ha0]; [|destruct (Z.eq_dec b 0) as [->|Hb0]].
  - destruct (Z.eq_dec b 0) as [->|Hb0]; [reflexivity|].
    rewrite (ofZ_canon b Hb0 Hb). reflexivity.
  - rewrite Z.mul_0_r, (ofZ_canon a Ha0 Ha). reflexivity.
  - rewrite (ofZ_canon a Ha0 Ha), (ofZ_canon b Hb0 Hb). unfold canon, mul.
    pose proof (log2_below (Z.abs a) ltac:(lia) Ha) as Hla.
    pose proof (log2_below (Z.abs b) ltac:(lia) Hb) as Hlb.
    set (la := Z.log2 (Z.abs a)) in *. set (lb := Z.log2 (Z.abs b)) in *.
    pose proof (pow2_pos (52 - la) ltac:(lia)) as HKa.
    pose proof (pow2_pos (52 - lb) ltac:(lia)) as HKb.
    set (Ka := 2 ^ (52 - la)) in *. set (Kb := 2 ^ (52 - lb)) in *.
    set (s := xorb (a * Ka <? 0) (b * Kb <? 0)).
    assert (Hs : (if s then - Z.abs (a * b) else Z.abs (a * b)) = a * b).
    { unfold s. destruct (Z.ltb_spec (a * Ka) 0), (Z.ltb_spec (b * Kb) 0); cbn; nia. }
    assert (Habs : Z.abs (a * Ka * (b * Kb)) = Z.abs (a * b) * (Ka * Kb)).
    { replace (a * Ka * (b * Kb)) with (a * b * (Ka * Kb)) by ring.
      rewrite Z.abs_mul. f_equal. apply Z.abs_eq. nia. }
    assert (HK : Ka * Kb = 2 ^ (52 - la + (52 - lb)))
      by (unfold Ka, Kb; rewrite Z.pow_add_r by lia; reflexivity).
    rewrite Habs.
    destruct (Z.ltb_spec (la - 52 + (lb - 52)) 0) as [He|He].
    + replace (- (la - 52 + (lb - 52))) with (52 - la + (52 - lb)) by lia.
      rewrite <- HK, roundPos_exact by nia.
      rewrite Hs. apply toZ_canon; [nia|exact Hab].
    + assert (HK1 : Ka * Kb = 1).
      { rewrite HK. replace (52 - la + (52 - lb)) with 0 by lia. reflexivity. }
      replace (la - 52 + (lb - 52)) with 0 by lia. change (2 ^ 0) with 1.
      rewrite HK1, !Z.mul_1_r.
      replace (Z.abs (a * b)) with (Z.abs (a * b) * 1) at 1 by ring.
      rewrite roundPos_exact by nia.
      rewrite Hs. apply toZ_canon; [nia|exact Hab].
Qed.

Lemma ceilDiv_bounds a b :
  0 < b -> (ceilDiv a b - 1) * b < a <= ceilDiv a b * b.
Proof.
  intros Hb. unfold ceilDiv.
  pose proof (Z.mul_div_le (- a) b Hb).
  pose proof (Z.mul_succ_div_gt (- a) b Hb).
  nia.
Qed.

Lemma ceilDiv_unique a b c :
  0 < b -> (c - 1) * b < a <= c * b -> ceilDiv a b = c.
Proof.
  intros Hb Hc. pose proof (ceilDiv_bounds a b Hb). nia.
Qed.

Lemma scaled_common a b j :
  0 < a -> 0 < b -> 0 < j ->
  let f := floorLog2 (a * j) (b * j) in
  f <= 52 ->
  scaled (a * j) (b * j) (f - 52) = (a * 2 ^ (52 - f) * j, b * j).
Proof.
  intros Ha Hb Hj f Hf. unfold scaled.
  destruct (Z.ltb_spec (f - 52) 0) as [He|He].
  - replace (- (f - 52)) with (52 - f) by lia. f_equal. ring.
  - replace (f - 52) with 0 by lia. replace (52 - f) with 0 by lia.
    change (2 ^ 0) with 1. f_equal; ring.
Qed.

Lemma floorLog2_safe a b j :
  0 < a -> a < 2 ^ 53 -> 0 < b -> b < 2 ^ 53 -> 0 < j ->
  -53 <= floorLog2 (a * j) (b * j) <= 52.
Proof.
  intros Ha Ha' Hb Hb' Hj.
  destruct (floorLog2_spec (a * j) (b * j) ltac:(nia) ltac:(nia))
    as [[Hf [H1 H2]]|[Hf [H1 H2]]];
    set (f := floorLog2 (a * j) (b * j)) in *.
  - split; [lia|].
    destruct (Z.le_gt_cases f 52) as [|Hgt]; [assumption|exfalso].
    assert (HF : 2 ^ 53 <= 2 ^ f) by (apply Z.pow_le_mono_r; lia).
    set (F := 2 ^ f) in *.
    assert (j * 2 ^ 53 <= j * F) by (apply Z.mul_le_mono_nonneg_l; lia).
    assert (1 * (j * F) <= b * (j * F)) by (apply Z.mul_le_mono_nonneg_r; nia).
    assert (a * j < 2 ^ 53 * j) by (apply Z.mul_lt_mono_pos_r; lia).
    lia.
  - split; [|lia].
    destruct (Z.le_gt_cases (-53) f) as [|Hlt]; [assumption|exfalso].
    assert (HF : 2 ^ 54 <= 2 ^ (- f)) by (apply Z.pow_le_mono_r; lia).
    set (F := 2 ^ (- f)) in *.
    assert (j * 2 ^ 54 <= j * F) by (apply Z.mul_le_mono_nonneg_l; lia).
    assert (1 * (j * F) <= a * (j * F)) by (apply Z.mul_le_mono_nonneg_r; nia).
    assert (b * j < 2 ^ 53 * j) by (apply Z.mul_lt_mono_pos_r; lia).
    change (2 ^ 54) with (2 * 2 ^ 53) in *.
    lia.
Qed.

(** The quotient of two safe positive integers, rounded to a double and then
    taken up to an integer, is the ceiling of the exact quotient. *)
Lemma ceil_roundPos a b j :
  0 < a -> a < 2 ^ 53 -> 0 < b -> b < 2 ^ 53 -> 0 < j ->
  toZ (ceil (roundPos false (a * j) (b * j))) = Some (ceilDiv a b).
Proof.
  intros Ha Ha' Hb Hb' Hj.
  pose proof (floorLog2_safe a b j Ha Ha' Hb Hb' Hj) as Hf.
  pose proof (scaled_bounds (a * j) (b * j) ltac:(nia) ltac:(nia)) as Hsb.
  unfold roundPos. rewrite Z.max_l by lia.
  rewrite (scaled_common a b j Ha Hb Hj) in * by lia.
  set (f := floorLog2 (a * j) (b * j)) in *.
  destruct Hsb as (_ & Hlo & Hhi).
  pose proof (pow2_pos (52 - f) ltac:(lia)) as HK.
  set (K := 2 ^ (52 - f)) in *.
  assert (Hlo' : 2 ^ 52 * b <= a * K) by nia.
  assert (Hhi' : a * K < 2 ^ 53 * b) by nia.
  rewrite Z.div_mul_cancel_r, Z.mul_mod_distr_r by lia.
  pose proof (Z.div_mod (a * K) b ltac:(lia)) as Hdm.
  pose proof (Z.mod_pos_bound (a * K) b Hb) as Hr.
  set (q := a * K / b) in *. set (r := (a * K) mod b) in *.
  assert (Hq1 : 2 ^ 52 <= q) by nia.
  assert (Hq2 : q < 2 ^ 53) by nia.
  pose proof (ceilDiv_bounds a b Hb) as Hc.
  set (c := ceilDiv a b) in *.
  assert (Hc0 : 0 < c) by nia.
  assert (Hca : c <= a) by nia.
  set (up := (b * j <? 2 * (r * j)) || (b * j =? 2 * (r * j)) && Z.odd q).
  assert (Hup1 : up = true -> 0 < r).
  { unfold up. intros H. destruct (Z.ltb_spec (b * j) (2 * (r * j))); [nia|].
    destruct (Z.eqb_spec (b * j) (2 * (r * j))); [nia|discriminate]. }
  assert (Hup2 : b < 2 * r -> up = true).
  { unfold up. intros H. destruct (Z.ltb_spec (b * j) (2 * (r * j))); [reflexivity|nia]. }
  assert (F1 : q <= c * K) by nia.
  assert (F2 : up = true -> q < c * K).
  { intros H. specialize (Hup1 H). nia. }
  assert (F3 : (c - 1) * K <= q) by nia.
  assert (F4 : q = (c - 1) * K -> up = true).
  { intros Hq. apply Hup2.
    assert (K <= r) by nia.
    assert (2 ^ 52 <= (c - 1) * K) by lia.
    assert ((c - 1) * b < 2 ^ 53) by nia.
    assert (b < 2 * K); [|lia].
    destruct (Z.lt_ge_cases b (2 * K)) as [|Hge]; [assumption|exfalso].
    assert ((c - 1) * (2 * K) <= (c - 1) * b)
      by (apply Z.mul_le_mono_nonneg_l; lia).
    change (2 ^ 53) with (2 * 2 ^ 52) in *. lia. }
  set (M := if up then q + 1 else q).
  assert (HM : (c - 1) * K < M <= c * K).
  { unfold M. destruct up.
    - specialize (F2 eq_refl). lia.
    - destruct (Z.eq_dec q ((c - 1) * K)) as [E|E]; [specialize (F4 E); discriminate|lia]. }
  assert (HM2 : 2 ^ 52 <= M <= 2 ^ 53) by (unfold M; destruct up; lia).
  destruct (Z.eqb_spec M (2 ^ 53)) as [Hcarry|Hnocarry].
  - (* the mantissa carried into the next binade *)
    change (2 ^ 52 =? 0) with false. cbv iota.
    replace (971 <? f - 52 + 1) with false by (symmetry; apply Z.ltb_ge; lia).
    unfold ceil.
    destruct (Z.leb_spec 0 (f - 52 + 1)) as [He|He].
    + unfold toZ. rewrite (proj2 (Z.leb_le 0 (f - 52 + 1)) He).
      assert (Hf' : f - 52 + 1 = 0 \/ f - 52 + 1 = 1) by lia.
      destruct Hf' as [E|E]; rewrite E.
      * assert (HK2 : K = 2) by (unfold K; replace (52 - f) with 1 by lia; reflexivity).
        change (2 ^ 0) with 1. f_equal. change (2 ^ 53) with (2 * 2 ^ 52) in *. lia.
      * exfalso.
        assert (HK2 : K = 1) by (unfold K; replace (52 - f) with 0 by lia; reflexivity).
        lia.
    + assert (HK2 : K = 2 * 2 ^ (- (f - 52 + 1))).
      { unfold K. rewrite <- Z.pow_succ_r by lia. f_equal. lia. }
      pose proof (pow2_pos (- (f - 52 + 1)) ltac:(lia)) as HP.
      set (P := 2 ^ (- (f - 52 + 1))) in *.
      fold (ceilDiv (2 ^ 52) P).
      rewrite (ceilDiv_unique (2 ^ 52) P c HP)
        by (change (2 ^ 53) with (2 * 2 ^ 52) in *; nia).
      replace (c =? 0) with false by (symmetry; apply Z.eqb_neq; lia).
      apply toZ_ofZ. lia.
  - replace (M =? 0) with false by (symmetry; apply Z.eqb_neq; lia).
    replace (971 <? f - 52) with false by (symmetry; apply Z.ltb_ge; lia).
    unfold ceil.
    destruct (Z.leb_spec 0 (f - 52)) as [He|He].
    + unfold toZ. rewrite (proj2 (Z.leb_le 0 (f - 52)) He).
      assert (HK2 : K = 1) by (unfold K; replace (52 - f) with 0 by lia; reflexivity).
      replace (f - 52) with 0 by lia. change (2 ^ 0) with 1. f_equal. lia.
    + replace (- (f - 52)) with (52 - f) by lia. fold K.
      fold (ceilDiv M K).
      rewrite (ceilDiv_unique M K c HK HM).
      replace (c =? 0) with false by (symmetry; apply Z.eqb_neq; lia).
      apply toZ_ofZ. lia.
Qed.

Lemma ceil_div_exact T L :
  0 <= T -> T < 2 ^ 53 -> 0 < L -> L < 2 ^ 53 ->
  toZ (ceil (div (ofZ T) (ofZ L))) = Some (ceilDiv T L).
Proof.
  intros HT HT' HL HL'.
  rewrite (ofZ_canon L) by lia.
  destruct (Z.eq_dec T 0) as [->|HT0].
  - unfold ceilDiv. change (- 0) with 0. rewrite Z.div_0_l by lia. reflexivity.
  - rewrite (ofZ_canon T) by lia. unfold canon, div.
    rewrite !Z.abs_eq by lia.
    pose proof (log2_below T ltac:(lia) HT') as HlT.
    pose proof (log2_below L HL HL') as HlL.
    set (lT := Z.log2 T) in *. set (lL := Z.log2 L) in *.
    pose proof (pow2_pos (52 - lT) ltac:(lia)) as HKT.
    pose proof (pow2_pos (52 - lL) ltac:(lia)) as HKL.
    replace (T * 2 ^ (52 - lT) <? 0) with false by (symmetry; apply Z.ltb_ge; nia).
    replace (L * 2 ^ (52 - lL) <? 0) with false by (symmetry; apply Z.ltb_ge; nia).
    cbn [xorb]. rewrite ?Z.abs_eq by nia.
    destruct (Z.ltb_spec (lT - 52 - (lL - 52)) 0) as [He|He].
    + replace (L * 2 ^ (52 - lL) * 2 ^ (- (lT - 52 - (lL - 52))))
        with (L * 2 ^ (52 - lT)).
      2:{ rewrite <- Z.mul_assoc, <- Z.pow_add_r by lia. do 2 f_equal. lia. }
      apply ceil_roundPos; lia.
    + replace (T * 2 ^ (52 - lT) * 2 ^ (lT - 52 - (lL - 52)))
        with (T * 2 ^ (52 - lL)).
      2:{ rewrite <- Z.mul_assoc, <- Z.pow_add_r by lia. do 2 f_equal. lia. }
      apply ceil_roundPos; lia.
Qed.

Example ceil_examples :
  map (fun p => toZ (ceil (div (ofZ (fst p)) (ofZ (snd p)))))
      [(3, 2); (7, 10); (10, 5); (0, 3); (2^53 - 1, 2^53 - 2); (9007199254740991, 3)]
  = [Some 2; Some 1; Some 2; Some 0; Some 2; Some 3002399751580331].
Proof. vm_compute. reflexivity. Qed.

(** The sum and the difference of safe integers, when safe, are computed
    exactly. *)
Lemma add_ofZ a b :
  Z.abs a < 2 ^ 53 -> Z.abs b < 2 ^ 53 -> Z.abs (a + b) < 2 ^ 53 ->
  add (ofZ a) (ofZ b) = ofZ (a + b).
Proof.
  intros Ha Hb Hab.
  destruct (Z.eq_dec a 0) as [->|Ha0]; [|destruct (Z.eq_dec b 0) as [->|Hb0]].
  - destruct (Z.eq_dec b 0) as [->|Hb0]; [reflexivity|].
    rewrite Z.add_0_l, (ofZ_canon b Hb0 Hb). reflexivity.
  - rewrite Z.add_0_r, (ofZ_canon a Ha0 Ha). reflexivity.
  - rewrite (ofZ_canon a Ha0 Ha), (ofZ_canon b Hb0 Hb). unfold canon, add.
    pose proof (log2_below (Z.abs a) ltac:(lia) Ha) as Hla.
    pose proof (log2_below (Z.abs b) ltac:(lia) Hb) as Hlb.
    set (la := Z.log2 (Z.abs a)) in *. set (lb := Z.log2 (Z.abs b)) in *.
    set (e := Z.min (la - 52) (lb - 52)).
    assert (He : e <= 0) by lia.
    replace (a * 2 ^ (52 - la) * 2 ^ (la - 52 - e) + b * 2 ^ (52 - lb) * 2 ^ (lb - 52 - e))
      with ((a + b) * 2 ^ (- e)).
    2:{ rewrite <- !Z.mul_assoc, <- !Z.pow_add_r by lia.
        replace (52 - la + (la - 52 - e)) with (- e) by lia.
        replace (52 - lb + (lb - 52 - e)) with (- e) by lia. ring. }
    replace e with (- - e) at 2 by lia.
    apply roundDyadic_exact; [exact Hab|lia].
Qed.

Lemma sub_ofZ a b :
  Z.abs a < 2 ^ 53 -> Z.abs b < 2 ^ 53 -> Z.abs (a - b) < 2 ^ 53 ->
  sub (ofZ a) (ofZ b) = ofZ (a - b).
Proof.
  intros Ha Hb Hab. unfold sub.
  destruct (Z.eq_dec b 0) as [->|Hb0].
  - destruct (Z.eq_dec a 0) as [->|Ha0]; [reflexivity|].
    rewrite Z.sub_0_r, (ofZ_canon a Ha0 Ha). reflexivity.
  - rewrite (ofZ_canon b Hb0 Hb), canon_neg, <- ofZ_canon by (rewrite ?Z.abs_opp; lia).
    replace (a - b) with (a + - b) by ring.
    apply add_ofZ; rewrite ?Z.abs_opp; assumption.
Qed.

(** The double of a safe integer is at least 1 only when the integer is. *)
Lemma leb_one_ofZ P :
  Z.abs P < 2 ^ 53 -> leb (ofZ 1) (ofZ P) = true -> 1 <= P.
Proof.
  intros HP.
  destruct (Z.eq_dec P 0) as [->|HP0]; [discriminate|].
  rewrite (ofZ_canon 1), (ofZ_canon P HP0 HP) by (try discriminate; reflexivity).
  unfold canon, leb.
  pose proof (log2_below (Z.abs P) ltac:(lia) HP) as Hl.
  change (Z.log2 (Z.abs 1)) with 0.
  set (l := Z.log2 (Z.abs P)) in *.
  rewrite Z.min_l by lia.
  replace (0 - 52 - (0 - 52)) with 0 by lia.
  replace (l - 52 - (0 - 52)) with l by lia.
  rewrite <- Z.mul_assoc, <- Z.pow_add_r by lia.
  replace (52 - l + l) with 52 by lia.
  intros Hle. apply Z.leb_le in Hle. lia.
Qed.

(** The value of [roundPos] has the sign asked for. *)
Lemma roundPos_shape s n d :
  0 < n -> 0 < d ->
  roundPos s n d = Zero s \/ roundPos s n d = Infinity s \/
  exists m e, roundPos s n d = Finite (if s then - m else m) e /\ 0 < m.
Proof.
  intros Hn Hd. unfold roundPos.
  set (e := Z.max (floorLog2 n d - 52) (-1074)).
  assert (HND : 0 <= fst (scaled n d e) /\ 0 < snd (scaled n d e)).
  { unfold scaled. destruct (Z.ltb_spec e 0).
    - pose proof (pow2_pos (- e) ltac:(lia)). cbn [fst snd]. nia.
    - pose proof (pow2_pos e ltac:(lia)). cbn [fst snd]. nia. }
  destruct (scaled n d e) as [N D]. cbn [fst snd] in HND.
  destruct HND as [HN HD].
  pose proof (Z.div_pos N D HN HD) as Hq.
  set (q := N / D) in *.
  set (up := (D <? 2 * (N mod D)) || ((D =? 2 * (N mod D)) && Z.odd q)).
  assert (Hm : 0 <= (if up then q + 1 else q)) by (destruct up; lia).
  set (m := if up then q + 1 else q) in *.
  destruct (Z.eqb_spec m (2 ^ 53)) as [_|_].
  - change (2 ^ 52 =? 0) with false. cbv iota.
    destruct (971 <? e + 1); [right; left; reflexivity|].
    right; right. exists (2 ^ 52), (e + 1). split; [reflexivity|reflexivity].
  - destruct (Z.eqb_spec m 0) as [_|Hm0]; [left; reflexivity|].
    destruct (971 <? e); [right; left; reflexivity|].
    right; right. exists m, e. split; [reflexivity|lia].
Qed.

Lemma round_shape n d :
  0 <= n -> 0 < d ->
  round n d = Zero false \/ round n d = Infinity false \/
  exists m e, round n d = Finite m e /\ 0 < m.
Proof.
  intros Hn Hd. unfold round.
  destruct (Z.eqb_spec n 0) as [_|Hn0]; [left; reflexivity|].
  destruct (Z.ltb_spec 0 n) as [_|]; [|lia].
  apply (roundPos_shape false); lia.
Qed.

(** With [page] and [limit] at least 1, [(page - 1) * limit] is never
    negative: it is a zero, a positive number, or NaN (the product of zero
    and infinity). *)
Lemma offset_not_negative page limit :
  leb (ofZ 1) page = true ->
  leb (ofZ 1) limit = true ->
  isNegative (mul (sub page (ofZ 1)) limit) = false.
Proof.
  assert (Hone : ofZ 1 = Finite (2 ^ 52) (-52)) by (vm_compute; reflexivity).
  rewrite Hone. intros Hpage Hlimit.
  assert (Hsub : sub page (Finite (2 ^ 52) (-52)) = Zero false \/
                 sub page (Finite (2 ^ 52) (-52)) = Infinity false \/
                 exists m e, sub page (Finite (2 ^ 52) (-52)) = Finite m e /\ 0 < m).
  { destruct page as [|[]|s|m e]; try discriminate.
    - right; left; reflexivity.
    - unfold leb in Hpage. apply Z.leb_le in Hpage.
      unfold sub, neg, add, roundDyadic.
      rewrite (Z.min_comm e (-52)).
      set (k := Z.min (-52) e) in *.
      assert (Hn : 0 <= m * 2 ^ (e - k) + - 2 ^ 52 * 2 ^ (-52 - k)) by lia.
      destruct (k <? 0).
      + apply round_shape; [exact Hn|]. apply pow2_pos. lia.
      + apply round_shape; [|lia].
        assert (0 <= 2 ^ k) by (apply Z.pow_nonneg; lia). nia. }
  assert (Hlim : limit = Infinity false \/ exists m e, limit = Finite m e /\ 0 < m).
  { destruct limit as [|[]|s|m e]; try discriminate.
    - left; reflexivity.
    - right. exists m, e. split; [reflexivity|].
      unfold leb in Hlimit. apply Z.leb_le in Hlimit.
      set (k := Z.min (-52) e) in *.
      pose proof (pow2_pos (-52 - k) ltac:(lia)).
      pose proof (pow2_pos (e - k) ltac:(lia)).
      nia. }
  destruct Hsub as [-> | [-> | (m1 & e1 & -> & Hm1)]];
    destruct Hlim as [-> | (m2 & e2 & -> & Hm2)]; try reflexivity.
  - cbn [mul isNegative xorb]. apply Z.ltb_ge. lia.
  - cbn [mul isNegative xorb]. apply Z.ltb_ge. lia.
  - cbn [mul isNegative xorb]. replace (m1 <? 0) with false by (symmetry; apply Z.ltb_ge; lia).
    reflexivity.
  - unfold mul.
    replace (m1 <? 0) with false by (symmetry; apply Z.ltb_ge; lia).
    replace (m2 <? 0) with false by (symmetry; apply Z.ltb_ge; lia).
    cbn [xorb].
    assert (Habs : 0 < Z.abs (m1 * m2)) by nia.
    destruct (e1 + e2 <? 0) eqn:He.
    + destruct (roundPos_shape false (Z.abs (m1 * m2)) (2 ^ (- (e1 + e2))) Habs)
        as [-> | [-> | (m & e & -> & Hm)]]; try reflexivity.
      * apply pow2_pos. apply Z.ltb_lt in He. lia.
      * cbn [isNegative]. apply Z.ltb_ge. lia.
    + apply Z.ltb_ge in He.
      pose proof (pow2_pos (e1 + e2) He).
      destruct (roundPos_shape false (Z.abs (m1 * m2) * 2 ^ (e1 + e2)) 1)
        as [-> | [-> | (m & e & -> & Hm)]]; try reflexivity; try lia; try nia.
      cbn [isNegative]. apply Z.ltb_ge. lia.
Qed.

(** A number that is not falsy is not the double of zero. *)
Lemma truthy_ofZ z : truthyNumber (ofZ z) = true -> z <> 0.
Proof. intros H ->. discriminate H. Qed.

(** A number that is at least 1 and an integer is a positive integer. *)
Lemma toZ_at_least_one x L :
  leb (ofZ 1) x = true -> toZ x = Some L -> 0 <= L.
Proof.
  assert (Hone : ofZ 1 = Finite (2 ^ 52) (-52)) by (vm_compute; reflexivity).
  rewrite Hone.
  destruct x as [|[]|s|m e]; try discriminate.
  unfold leb, toZ. intros Hle. apply Z.leb_le in Hle.
  assert (Hm : 0 < m).
  { set (k := Z.min (-52) e) in *.
    pose proof (pow2_pos (-52 - k) ltac:(lia)).
    pose proof (pow2_pos (e - k) ltac:(lia)).
    nia. }
  destruct (Z.leb_spec 0 e) as [He|He].
  - intros [= <-]. pose proof (pow2_pos e He). nia.
  - destruct (m mod 2 ^ (- e) =? 0); [|discriminate].
    intros [= <-]. apply Z.div_pos; [lia|apply pow2_pos; lia].
Qed.

(** The quotient of a count by an infinite limit is zero. *)
Lemma ceil_div_infinity T :
  0 <= T -> Z.abs T < 2 ^ 53 ->
  ceil (div (ofZ T) (Infinity false)) = Zero false.
Proof.
  intros HT Hsafe.
  destruct (Z.eq_dec T 0) as [->|HT0]; [reflexivity|].
  rewrite (ofZ_canon T HT0 Hsafe). unfold canon, div, isNegative.
  rewrite xorb_false_r.
  replace (T * 2 ^ (52 - Z.log2 (Z.abs T)) <? 0) with false; [reflexivity|].
  symmetry. apply Z.ltb_ge.
  pose proof (log2_below (Z.abs T) ltac:(lia) Hsafe).
  pose proof (pow2_pos (52 - Z.log2 (Z.abs T)) ltac:(lia)). nia.
Qed.

End NumberFacts.

(** The arithmetic of [Js] is that of the Standard Library's binary64 on
    the sample doubles, and [Js.ofZ] rounds the sample integers as it
    does. *)
Example arithmetic_agrees_with_SpecFloat :
  forallb (fun z => Ieee.same (Ieee.toSF (Js.ofZ z))
                      (SpecFloat.binary_normalize 53 1024 z 0 false))
          Ieee.integers = true /\
  Ieee.agree Js.add (SpecFloat.SFadd 53 1024) = true /\
  Ieee.agree Js.sub (SpecFloat.SFsub 53 1024) = true /\
  Ieee.agree Js.mul (SpecFloat.SFmul 53 1024) = true /\
  Ieee.agree Js.div (SpecFloat.SFdiv 53 1024) = true.
Proof. repeat apply conj; vm_compute; reflexivity. Qed.

(* ===================================================================== *)
(** ** Reading the query *)
(* ===================================================================== *)

(** *** Strings *)

Lemma lowerChar_comma c : Ascii.eqb (Js.lowerChar c) "," = Ascii.eqb c ",".
Proof. destruct c as [[] [] [] [] [] [] [] []]; reflexivity. Qed.

(** Lower-casing the list and cutting it at the commas is cutting it and
    lower-casing the pieces. *)
Lemma split_toLowerCase s :
  Js.split "," (Js.toLowerCase s) = map Js.toLowerCase (Js.split "," s).
Proof.
  induction s as [|c s IH]; [reflexivity|].
  cbn [Js.toLowerCase Js.split]. rewrite lowerChar_comma, IH.
  destruct (Ascii.eqb c ","); [reflexivity|].
  destruct (Js.split "," s); reflexivity.
Qed.

Lemma filterBoolean_map {A B} (f : A -> option B) (xs : list A) :
  Js.filterBoolean (map f xs) = omap f xs.
Proof.
  unfold Js.filterBoolean.
  induction xs as [|x xs IH]; [reflexivity|].
  cbn. rewrite IH. destruct (f x); reflexivity.
Qed.

Lemma truthyString_toLowerCase s :
  Js.truthyString (Js.toLowerCase s) = Js.truthyString s.
Proof. destruct s; reflexivity. Qed.









(** *** White space *)

Lemma isWhiteSpace_units c :
  Js.isWhiteSpace c = existsb (Nat.eqb (nat_of_ascii c)) whiteSpaceUnits.
Proof. destruct c as [[] [] [] [] [] [] [] []]; reflexivity. Qed.

Lemma trimStart_blank ws s :
  blank ws = true -> Js.trimStart (ws +:+ s) = Js.trimStart s.
Proof.
  unfold blank. induction ws as [|c ws IH]; [reflexivity|].
  cbn [list_ascii_of_string forallb]. rewrite andb_true_iff. intros [Hc Hws].
  change (String c ws +:+ s) with (String c (ws +:+ s)).
  cbn [Js.trimStart]. rewrite isWhiteSpace_units, Hc. apply IH, Hws.
Qed.

(** [parseInt] skips the white space a text starts with. *)
Lemma parseIntOfString_blank ws s :
  blank ws = true -> Js.parseIntOfString (ws +:+ s) = Js.parseIntOfString s.
Proof.
  intros Hws. unfold Js.parseIntOfString. rewrite trimStart_blank by exact Hws.
  reflexivity.
Qed.

(** *** Numerals *)

Lemma radixDigit_decimalDigit c :
  decimalDigit c = false -> Js.radixDigit 10 c = None.
Proof. destruct c as [[] [] [] [] [] [] [] []]; try discriminate; reflexivity. Qed.

Lemma radixDigit_pretty_char d :
  (d < 10)%N -> Js.radixDigit 10 (pretty_N_char d) = Some (Z.of_N d).
Proof.
  intros Hd.
  assert (d = 0 \/ d = 1 \/ d = 2 \/ d = 3 \/ d = 4 \/ d = 5 \/ d = 6 \/ d = 7
          \/ d = 8 \/ d = 9)%N as Hcases by lia.
  repeat (destruct Hcases as [-> | Hcases]; [reflexivity|]). subst d. reflexivity.
Qed.

Lemma digitsPrefix_pretty_go x :
  (0 < x)%N ->
  exists p : Z, forall s acc,
    Js.digitsPrefix 10 (pretty_N_go x s) acc =
    Js.digitsPrefix 10 s (Some (default 0 acc * p + Z.of_N x)%Z).
Proof.
  induction (N.lt_wf_0 x) as [x _ IH]. intros Hx.
  assert (Hmod : (x `mod` 10 < 10)%N) by (apply N.mod_lt; lia).
  pose proof (N.div_mod x 10 ltac:(lia)) as Hdm.
  destruct (decide (x `div` 10 = 0)%N) as [Hz|Hnz].
  - exists 10. intros s acc. rewrite pretty_N_go_step, Hz, pretty_N_go_0 by done.
    cbn [Js.digitsPrefix]. rewrite radixDigit_pretty_char by done.
    do 2 f_equal. lia.
  - destruct (IH (x `div` 10)%N) as [p Hp]; [apply N.div_lt; lia|lia|].
    exists (10 * p). intros s acc. rewrite pretty_N_go_step, Hp by done.
    cbn [Js.digitsPrefix]. rewrite radixDigit_pretty_char by done.
    cbn [default id]. do 2 f_equal. lia.
Qed.

Lemma pretty_N_go_head x s :
  (0 < x)%N ->
  exists c rest, pretty_N_go x s = String c rest /\ leadingDigit c = true.
Proof.
  revert s. induction (N.lt_wf_0 x) as [x _ IH]. intros s Hx.
  rewrite pretty_N_go_step by done.
  destruct (decide (x `div` 10 = 0)%N) as [Hz|Hnz].
  - rewrite Hz, pretty_N_go_0. eexists _, _. split; [reflexivity|].
    pose proof (N.div_mod x 10 ltac:(lia)) as Hdm.
    assert (Hmod : (x `mod` 10 < 10)%N) by (apply N.mod_lt; lia).
    assert (x `mod` 10 = 1 \/ x `mod` 10 = 2 \/ x `mod` 10 = 3 \/ x `mod` 10 = 4
            \/ x `mod` 10 = 5 \/ x `mod` 10 = 6 \/ x `mod` 10 = 7
            \/ x `mod` 10 = 8 \/ x `mod` 10 = 9)%N as Hcases by lia.
    repeat (destruct Hcases as [-> | Hcases]; [reflexivity|]).
    rewrite Hcases. reflexivity.
  - apply IH; [apply N.div_lt; lia|apply N.neq_0_lt_0; exact Hnz].
Qed.

Lemma pretty_N_go_app x s t :
  pretty_N_go x (s +:+ t) = pretty_N_go x s +:+ t.
Proof.
  revert s. induction (N.lt_wf_0 x) as [x _ IH]. intros s.
  destruct (decide (x = 0)%N) as [->|Hx]; [reflexivity|].
  rewrite (pretty_N_go_step x (s +:+ t)), (pretty_N_go_step x s) by lia.
  assert (Hlt : (x `div` 10 < x)%N) by (apply N.div_lt; lia).
  exact (IH _ Hlt (String (pretty_N_char (x `mod` 10)) s)).
Qed.

(** A text that starts with a digit from 1 to 9, with or without a minus
    sign before it, is read in radix 10 from that digit on. *)
Lemma parseIntOfString_leadingDigit c rest :
  leadingDigit c = true ->
  Js.parseIntOfString (String c rest) =
    match Js.digitsPrefix 10 (String c rest) None with
    | Some m => if m =? 0 then Js.Zero false else Js.ofZ m
    | None => Js.NaN
    end
  /\ Js.parseIntOfString (String "-" (String c rest)) =
    match Js.digitsPrefix 10 (String c rest) None with
    | Some m => if m =? 0 then Js.Zero true else Js.ofZ (- m)
    | None => Js.NaN
    end
  /\ Js.parseIntOfString (String "+" (String c rest)) =
    match Js.digitsPrefix 10 (String c rest) None with
    | Some m => if m =? 0 then Js.Zero false else Js.ofZ m
    | None => Js.NaN
    end.
Proof.
  destruct c as [[] [] [] [] [] [] [] []]; try discriminate; intros _.
  all: repeat apply conj; unfold Js.parseIntOfString; cbn [Js.trimStart].
  all: repeat match goal with
         | |- context [Js.isWhiteSpace ?c] => change (Js.isWhiteSpace c) with false
         end.
  all: cbv beta iota zeta.
  all: reflexivity.
Qed.

(** The decimal form of a positive number, followed by a text that does not
    go on with a digit, is read as that number. *)
Lemma digitsPrefix_pretty_positive (p : positive) rest :
  endsNumeral rest = true ->
  exists c tail,
    pretty p +:+ rest = String c tail /\
    leadingDigit c = true /\
    Js.digitsPrefix 10 (String c tail) None = Some (Z.pos p).
Proof.
  intros Hrest. unfold pretty, pretty_positive, pretty, pretty_N.
  case_decide; [discriminate|].
  rewrite <- pretty_N_go_app. change ("" +:+ rest) with rest.
  destruct (pretty_N_go_head (N.pos p) rest) as (c & tail & Heq & Hc); [lia|].
  destruct (digitsPrefix_pretty_go (N.pos p)) as [q Hq]; [lia|].
  exists c, tail. split; [exact Heq|]. split; [exact Hc|].
  rewrite <- Heq, Hq.
  destruct rest as [|d rest]; [reflexivity|].
  cbn [Js.digitsPrefix]. rewrite radixDigit_decimalDigit; [reflexivity|].
  cbn [endsNumeral] in Hrest. apply negb_true_iff. exact Hrest.
Qed.

(** [parseInt] reads the decimal form of a non-zero integer as the double
    nearest to it, and ignores what follows the numeral. *)
Lemma parseIntOfString_pretty_suffix z rest :
  z <> 0 ->
  endsNumeral rest = true ->
  Js.parseIntOfString (pretty z +:+ rest) = Js.ofZ z.
Proof.
  intros Hz Hrest.
  destruct z as [|p|p]; [congruence| |].
  - destruct (digitsPrefix_pretty_positive p rest Hrest) as (c & tail & Heq & Hc & Hd).
    change (pretty (Z.pos p)) with (pretty p). rewrite Heq.
    rewrite (proj1 (parseIntOfString_leadingDigit c tail Hc)), Hd. reflexivity.
  - destruct (digitsPrefix_pretty_positive p rest Hrest) as (c & tail & Heq & Hc & Hd).
    change (pretty (Z.neg p) +:+ rest) with (String "-" (pretty p +:+ rest)).
    rewrite Heq.
    rewrite (proj1 (proj2 (parseIntOfString_leadingDigit c tail Hc))), Hd. reflexivity.
Qed.

Lemma parseIntOfString_plus_pretty z rest :
  0 < z ->
  endsNumeral rest = true ->
  Js.parseIntOfString (String "+" (pretty z +:+ rest)) = Js.ofZ z.
Proof.
  intros Hz Hrest. destruct z as [|p|p]; try lia.
  destruct (digitsPrefix_pretty_positive p rest Hrest) as (c & tail & Heq & Hc & Hd).
  change (pretty (Z.pos p)) with (pretty p). rewrite Heq.
  rewrite (proj2 (proj2 (parseIntOfString_leadingDigit c tail Hc))), Hd. reflexivity.
Qed.

Lemma append_empty s : s +:+ "" = s.
Proof.
  induction s as [|c s IH]; [reflexivity|].
  change (String c (s +:+ "") = String c s). rewrite IH. reflexivity.
Qed.

(** [parseInt] reads back the decimal form of every integer. *)
Lemma parseIntOfString_pretty z : Js.parseIntOfString (pretty z) = Js.ofZ z.
Proof.
  destruct (decide (z = 0)) as [->|Hz]; [reflexivity|].
  rewrite <- (append_empty (pretty z)).
  apply parseIntOfString_pretty_suffix; [exact Hz|reflexivity].
Qed.

(** A text with no numeral at its start reads as NaN: the empty text, a
    text whose first character is neither white space, nor a sign, nor a
    digit, and a sign that no digit follows. *)
Lemma parseIntOfString_no_numeral c rest :
  decimalDigit c = false ->
  (blank (String c "") = false -> c <> "+"%char -> c <> "-"%char ->
   Js.parseIntOfString (String c rest) = Js.NaN) /\
  Js.parseIntOfString (String "+" (String c rest)) = Js.NaN /\
  Js.parseIntOfString (String "-" (String c rest)) = Js.NaN.
Proof.
  destruct c as [[] [] [] [] [] [] [] []]; try discriminate; intros _.
  all: split; [intros Hblank Hplus Hminus;
               first [discriminate Hblank | congruence | reflexivity]
              |split; reflexivity].
Qed.

(** The fallback is [||] with a number literal. *)
Lemma orDefault_fallback n d : Js.orDefault n (Js.ofZ d) = fallback n d.
Proof. destruct n; reflexivity. Qed.

Lemma fallback_truthy n d : d <> 0 -> Js.truthyNumber (fallback n d) = true.
Proof.
  intros Hd. destruct n; cbn [fallback]; try reflexivity;
    apply NumberFacts.ofZ_truthy; exact Hd.
Qed.

(** [parseInt] reads decimal numerals. *)
Lemma parseIntOfString_readsDecimal : readsDecimal Js.parseIntOfString.
Proof.
  repeat apply conj.
  - apply parseIntOfString_blank.
  - apply parseIntOfString_pretty_suffix.
  - apply parseIntOfString_plus_pretty.
  - reflexivity.
  - reflexivity.
  - reflexivity.
  - intros c rest Hc.
    destruct (parseIntOfString_no_numeral c rest Hc) as (Hbare & Hplus & Hminus).
    repeat apply conj; assumption.
Qed.

(** A numeral that is not zero passes the fallback as it is. *)
Lemma fallback_ofZ z d : z <> 0 -> fallback (Js.ofZ z) d = Js.ofZ z.
Proof.
  intros Hz. pose proof (NumberFacts.ofZ_truthy z Hz) as Ht.
  destruct (Js.ofZ z); try discriminate; reflexivity.
Qed.

(** *** The constants of lines 113-116 *)

Section Locals.

Context {body : Type}.
Implicit Types (req : request body) (c : locals).

(** A parameter that is absent or a string is read without throwing. *)
Lemma ToString_plain v : plain v -> exists text, Js.ToString v = Resolved text.
Proof. destruct v as [[s| |]|]; try contradiction; intros _; eexists; reflexivity. Qed.

(** A request whose [limit], [page] and [populate] are absent or strings
    gets through lines 113-116. *)
Lemma localsOf_plain req :
  plain (query req !! "limit") ->
  plain (query req !! "page") ->
  plain (query req !! "populate") ->
  exists c, localsOf req = Resolved c.
Proof.
  intros Hlimit Hpage Hpopulate. unfold localsOf, Js.parseInt.
  destruct (ToString_plain _ Hlimit) as [limitText ->].
  destruct (ToString_plain _ Hpage) as [pageText ->].
  destruct (query req !! "populate") as [[s| |]|]; try contradiction.
  - cbn [Js.truthyValue Js.callToLowerCase]. destruct (Js.truthyString s); eexists; reflexivity.
  - eexists; reflexivity.
Qed.

(** [limit] and [page] are what [parseInt] reads from the text of the
    parameter, under the fallback. *)
Lemma localsOf_numbers req c :
  localsOf req = Resolved c ->
  exists limitText pageText,
    Js.ToString (query req !! "limit") = Resolved limitText /\
    Js.ToString (query req !! "page") = Resolved pageText /\
    limitOf c = fallback (Js.parseIntOfString limitText) 10 /\
    pageOf c = fallback (Js.parseIntOfString pageText) 1.
Proof.
  unfold localsOf, Js.parseInt.
  destruct (Js.ToString (query req !! "limit")) as [limitText|e]; [|discriminate].
  destruct (Js.ToString (query req !! "page")) as [pageText|e]; [|discriminate].
  destruct (match query req !! "populate" with Some _ => _ | None => _ end) as [lowered|e];
    [|discriminate].
  intros [= <-]. exists limitText, pageText. cbn [limitOf pageOf].
  rewrite !orDefault_fallback. repeat apply conj; reflexivity.
Qed.

(** Neither is ever NaN or a zero. *)
Lemma localsOf_truthy req c :
  localsOf req = Resolved c ->
  Js.truthyNumber (limitOf c) = true /\ Js.truthyNumber (pageOf c) = true.
Proof.
  intros Hc. destruct (localsOf_numbers req c Hc) as (lt & pt & _ & _ & -> & ->).
  split; apply fallback_truthy; discriminate.
Qed.

Lemma localsOf_sort req c :
  localsOf req = Resolved c ->
  (query req !! "sort" = Some (Js.Str "desc") /\ sortOf c = DESC) \/
  (query req !! "sort" <> Some (Js.Str "desc") /\ sortOf c = ASC).
Proof.
  unfold localsOf.
  destruct (Js.parseInt (query req !! "limit")) as [parsedLimit|e]; [|discriminate].
  destruct (Js.parseInt (query req !! "page")) as [parsedPage|e]; [|discriminate].
  destruct (match query req !! "populate" with Some _ => _ | None => _ end) as [lowered|e];
    [|discriminate].
  intros [= <-]. cbn [sortOf]. unfold Js.strictEquals.
  destruct (query req !! "sort") as [[s| |]|];
    try (right; split; [discriminate|reflexivity]).
  destruct (String.eqb_spec s "desc") as [->|Hne].
  - left. split; reflexivity.
  - right. split; [congruence|reflexivity].
Qed.

(** [populate] is the lower-cased parameter; the parameter is a string, or
    absent. *)
Lemma localsOf_populate req c :
  localsOf req = Resolved c ->
  (query req !! "populate" = None /\ populateOf c = "") \/
  (exists s, query req !! "populate" = Some (Js.Str s) /\
             populateOf c = Js.toLowerCase s).
Proof.
  unfold localsOf.
  destruct (Js.parseInt (query req !! "limit")) as [parsedLimit|e]; [|discriminate].
  destruct (Js.parseInt (query req !! "page")) as [parsedPage|e]; [|discriminate].
  destruct (query req !! "populate") as [[s| |]|]; cbn [Js.truthyValue Js.callToLowerCase];
    try discriminate.
  - destruct s as [|ch s]; cbn [Js.truthyString]; intros [= <-]; right;
      eexists; split; reflexivity.
  - intros [= <-]. left. split; reflexivity.
Qed.

(** An array or an object under [populate] makes line 116 throw, unless
    line 113 or 114 threw before. *)
Lemma localsOf_populate_not_plain req :
  ~ plain (query req !! "populate") ->
  exists e, localsOf req = Rejected e.
Proof.
  unfold localsOf. intros Hp.
  destruct (Js.parseInt (query req !! "limit")) as [parsedLimit|e]; [|eexists; reflexivity].
  destruct (Js.parseInt (query req !! "page")) as [parsedPage|e]; [|eexists; reflexivity].
  destruct (query req !! "populate") as [[s| |]|]; cbn [plain] in Hp; try tauto;
    eexists; reflexivity.
Qed.




Lemma includeOf_courseTokens req c :
  localsOf req = Resolved c ->
  length (includeOf c) = length (courseTokens (query req !! "populate")).
Proof.
  intros Hc. unfold includeOf, courseTokens.
  destruct (localsOf_populate req c Hc) as [[-> ->] | (s & -> & ->)]; [reflexivity|].
  rewrite truthyString_toLowerCase, split_toLowerCase, filterBoolean_map.
  assert (Hlen : forall tokens,
             length (omap (fun model => if String.eqb model "course" then Some Course else None)
                          (map Js.toLowerCase tokens))
             = length (filter (fun token => eqIgnoreCase token "course" = true) tokens)).
  { intros tokens. unfold omap.
    induction tokens as [|t tokens IH]; [reflexivity|].
    cbn [map list_omap]. rewrite filter_cons.
    destruct (String.eqb (Js.toLowerCase t) "course") eqn:Heq; cbn [length].
    - rewrite decide_True by exact Heq. cbn [length]. rewrite IH. reflexivity.
    - rewrite decide_False; [exact IH|].
      unfold eqIgnoreCase. change (Js.toLowerCase "course") with "course".
      rewrite Heq. discriminate. }
  destruct (Js.truthyString s) eqn:Hs; [apply Hlen|].
  destruct s; [reflexivity|discriminate].
Qed.

End Locals.

(* ===================================================================== *)
(** ** Properties of the handlers, for any gateway *)
(* ===================================================================== *)

(** Unfolds one request up to the next gateway call. *)
Ltac step_handler :=
  cbn [handle responses exec bind try_catch await js res_json res_status ret
       result db_after res_after calls sent statusCode fresh_res app
       status payload fst snd].

Section AnyGateway.

Context {instance body store : Type}.
Variable gw : gateway instance body store.

Implicit Types (db : store) (req : request body) (e : error) (c : locals).

(** *** What each handler does, by the outcomes of its gateway calls *)

Lemma createTeacher_run db req :
  handle gw (createTeacher req) db =
    let call := Teacher_create (req_body req) in
    {| result := Resolved tt;
       db_after := snd (gw call db);
       res_after :=
         match fst (gw call db) with
         | Resolved t =>
             {| statusCode := 201; sent := [{| status := 201; payload := JInstance t |}] |}
         | Rejected e => {| statusCode := 500; sent := [serverError e] |}
         end;
       calls := [call] |}.
Proof.
  unfold createTeacher. step_handler.
  destruct (gw _ db) as [[t|e] db']; reflexivity.
Qed.

Lemma getAllTeachers_run db req :
  handle gw (getAllTeachers req) db =
    match localsOf req with
    | Rejected e =>
        {| result := Rejected e; db_after := db; res_after := fresh_res; calls := [] |}
    | Resolved c =>
        match gw Teacher_count db with
        | (Rejected e, db1) =>
            {| result := Rejected e; db_after := db1; res_after := fresh_res;
               calls := [Teacher_count] |}
        | (Resolved total, db1) =>
            let call := Teacher_findAll (optionsOf c) in
            {| result := Resolved tt;
               db_after := snd (gw call db1);
               res_after :=
                 match fst (gw call db1) with
                 | Resolved teachers =>
                     {| statusCode := 200;
                        sent := [{| status := 200;
                                    payload :=
                                      JObj [("meta",
                                             JObj [("total", JNum total);
                                                   ("page", JNum (pageOf c));
                                                   ("totalPages",
                                                    JNum (Js.ceil (Js.div total (limitOf c))))]);
                                            ("data", JArr (map JInstance teachers))] |}] |}
                 | Rejected e => {| statusCode := 500; sent := [serverError e] |}
                 end;
               calls := [Teacher_count; call] |}
        end
    end.
Proof.
  unfold getAllTeachers, localsOf.
  destruct (Js.parseInt (query req !! "limit")) as [parsedLimit|e]; [|reflexivity].
  destruct (Js.parseInt (query req !! "page")) as [parsedPage|e]; [|reflexivity].
  destruct (match query req !! "populate" with Some _ => _ | None => _ end) as [lowered|e];
    [|reflexivity].
  step_handler.
  destruct (gw Teacher_count db) as [[total|e] db1]; [|reflexivity].
  step_handler. unfold optionsOf, includeOf. cbn [limitOf pageOf sortOf populateOf].
  destruct (gw (Teacher_findAll _) db1) as [[teachers|e] db2]; reflexivity.
Qed.
Lemma getTeacherById_run db req :
  handle gw (getTeacherById req) db =
    let call := Teacher_findByPk (params req !! "id") [Course] in
    {| result := Resolved tt;
       db_after := snd (gw call db);
       res_after :=
         match fst (gw call db) with
         | Resolved (Some t) =>
             {| statusCode := 200; sent := [{| status := 200; payload := JInstance t |}] |}
         | Resolved None => {| statusCode := 404; sent := [notFound] |}
         | Rejected e => {| statusCode := 500; sent := [serverError e] |}
         end;
       calls := [call] |}.
Proof.
  unfold getTeacherById. step_handler.
  destruct (gw _ db) as [[[t|]|e] db']; reflexivity.
Qed.

Lemma updateTeacher_run db req :
  handle gw (updateTeacher req) db =
    let lookup := Teacher_findByPk (params req !! "id") [] in
    match gw lookup db with
    | (Resolved (Some t), db1) =>
        let call := instance_update t (req_body req) in
        {| result := Resolved tt;
           db_after := snd (gw call db1);
           res_after :=
             match fst (gw call db1) with
             | Resolved updated =>
                 {| statusCode := 200;
                    sent := [{| status := 200; payload := JInstance updated |}] |}
             | Rejected e => {| statusCode := 500; sent := [serverError e] |}
             end;
           calls := [lookup; call] |}
    | (Resolved None, db1) =>
        {| result := Resolved tt; db_after := db1;
           res_after := {| statusCode := 404; sent := [notFound] |};
           calls := [lookup] |}
    | (Rejected e, db1) =>
        {| result := Resolved tt; db_after := db1;
           res_after := {| statusCode := 500; sent := [serverError e] |};
           calls := [lookup] |}
    end.
Proof.
  unfold updateTeacher. step_handler.
  destruct (gw _ db) as [[[t|]|e] db1]; try reflexivity.
  step_handler.
  destruct (gw _ db1) as [[updated|e] db2]; reflexivity.
Qed.

Lemma deleteTeacher_run db req :
  handle gw (deleteTeacher req) db =
    let lookup := Teacher_findByPk (params req !! "id") [] in
    match gw lookup db with
    | (Resolved (Some t), db1) =>
        let call := instance_destroy t in
        {| result := Resolved tt;
           db_after := snd (gw call db1);
           res_after :=
             match fst (gw call db1) with
             | Resolved _ =>
                 {| statusCode := 200;
                    sent := [{| status := 200;
                                payload := JObj [("message", JStr "Deleted")] |}] |}
             | Rejected e => {| statusCode := 500; sent := [serverError e] |}
             end;
           calls := [lookup; call] |}
    | (Resolved None, db1) =>
        {| result := Resolved tt; db_after := db1;
           res_after := {| statusCode := 404; sent := [notFound] |};
           calls := [lookup] |}
    | (Rejected e, db1) =>
        {| result := Resolved tt; db_after := db1;
           res_after := {| statusCode := 500; sent := [serverError e] |};
           calls := [lookup] |}
    end.
Proof.
  unfold deleteTeacher. step_handler.
  destruct (gw _ db) as [[[t|]|e] db1]; try reflexivity.
  step_handler.
  destruct (gw _ db1) as [[[]|e] db2]; reflexivity.
Qed.

(** *** Create *)

(** C7: [createTeacher] makes one gateway call, [create] on the request body
    as it came; when the call resolves the response is 201 with the created
    instance, when it is rejected the response is 500 with the message of
    the error under [error]. *)
Theorem createTeacher_delegates db req :
  let call := Teacher_create (req_body req) in
  let r := handle gw (createTeacher req) db in
  calls r = [call] /\
  result r = Resolved tt /\
  responses r =
    match fst (gw call db) with
    | Resolved created => [{| status := 201; payload := JInstance created |}]
    | Rejected e =>
        [{| status := 500; payload := JObj [("error", JStr (message e))] |}]
    end.
Proof.
  cbv zeta. rewrite createTeacher_run. cbv zeta. unfold responses. cbn [calls result res_after].
  repeat split.
  destruct (fst (gw _ db)); reflexivity.
Qed.

(** *** List *)

(** C1 does not hold of [getAllTeachers]: the count is awaited before the
    [try] block, so when the gateway rejects it the handler's promise is
    rejected with the same error and no response is written (the claim asks
    for one response, 500 with the message).  This is so for every request
    that reaches the count, those whose query parameters are all strings
    among them. *)
Theorem count_rejection_escapes db req c e db1 :
  localsOf req = Resolved c ->
  gw Teacher_count db = (Rejected e, db1) ->
  let r := handle gw (getAllTeachers req) db in
  result r = Rejected e /\ responses r = [] /\ calls r = [Teacher_count].
Proof.
  intros Hc Hcount. cbv zeta. rewrite getAllTeachers_run, Hc, Hcount.
  repeat split.
Qed.

(** X1: a rejection of the [findAll] query is caught: the handler's promise
    resolves and one response is written, 500 with the message of the error
    under [error]. *)
Theorem findAll_rejection_contained db req c total db1 e db2 :
  localsOf req = Resolved c ->
  gw Teacher_count db = (Resolved total, db1) ->
  gw (Teacher_findAll (optionsOf c)) db1 = (Rejected e, db2) ->
  let r := handle gw (getAllTeachers req) db in
  result r = Resolved tt /\
  responses r = [{| status := 500; payload := JObj [("error", JStr (message e))] |}].
Proof.
  intros Hc Hcount Hfind. cbv zeta. rewrite getAllTeachers_run, Hc, Hcount.
  cbv zeta. unfold responses. cbn [result res_after]. rewrite Hfind.
  split; reflexivity.
Qed.

(** Once the count has resolved the handler issues one query, with the
    options computed from the request. *)
Lemma getAllTeachers_queries db req c total db1 :
  localsOf req = Resolved c ->
  gw Teacher_count db = (Resolved total, db1) ->
  calls (handle gw (getAllTeachers req) db) =
    [Teacher_count; Teacher_findAll (optionsOf c)] /\
  queries (handle gw (getAllTeachers req) db) = [optionsOf c].
Proof.
  intros Hc Hcount. unfold queries. rewrite getAllTeachers_run, Hc, Hcount.
  split; reflexivity.
Qed.

(** The response of a list request whose count and query both resolved. *)
Lemma getAllTeachers_success db req c total db1 rows db2 :
  localsOf req = Resolved c ->
  gw Teacher_count db = (Resolved total, db1) ->
  gw (Teacher_findAll (optionsOf c)) db1 = (Resolved rows, db2) ->
  let r := handle gw (getAllTeachers req) db in
  result r = Resolved tt /\
  db_after r = db2 /\
  responses r =
    [{| status := 200;
        payload :=
          JObj [("meta", JObj [("total", JNum total);
                               ("page", JNum (pageOf c));
                               ("totalPages", JNum (Js.ceil (Js.div total (limitOf c))))]);
                ("data", JArr (map JInstance rows))] |}].
Proof.
  intros Hc Hcount Hfind. cbv zeta. rewrite getAllTeachers_run, Hc, Hcount.
  cbv zeta. unfold responses. cbn [result db_after res_after]. rewrite Hfind.
  repeat split.
Qed.

(** C2, amended: the limit of the query is the number [parseInt] reads from
    the text of the [limit] parameter, and its offset is computed from the
    number read from [page], except that the defaults 10 and 1 stand in when
    the number read is NaN (parameter absent or without numeral) or a zero;
    any other number, a negative one included, goes into the query as it
    is.  The reading is that of decimal numerals, a safe integer is read
    exactly, and a numeral other than zero passes the fallback. *)
Theorem list_limit_page_fallback db req c total db1 :
  localsOf req = Resolved c ->
  gw Teacher_count db = (Resolved total, db1) ->
  exists limitText pageText options,
    Js.ToString (query req !! "limit") = Resolved limitText /\
    Js.ToString (query req !! "page") = Resolved pageText /\
    queries (handle gw (getAllTeachers req) db) = [options] /\
    limit options = fallback (Js.parseIntOfString limitText) 10 /\
    offset options =
      Js.mul (Js.sub (fallback (Js.parseIntOfString pageText) 1) (Js.ofZ 1))
             (limit options) /\
    (query req !! "limit" = None -> limit options = Js.ofZ 10) /\
    (query req !! "page" = None -> fallback (Js.parseIntOfString pageText) 1 = Js.ofZ 1) /\
    readsDecimal Js.parseIntOfString /\
    (forall z d, z <> 0 -> fallback (Js.ofZ z) d = Js.ofZ z) /\
    (forall z, safe z -> Js.toZ (Js.ofZ z) = Some z).
Proof.
  intros Hc Hcount.
  destruct (localsOf_numbers req c Hc) as (limitText & pageText & Hlt & Hpt & Hl & Hp).
  exists limitText, pageText, (optionsOf c).
  split; [exact Hlt|]. split; [exact Hpt|].
  split; [apply (getAllTeachers_queries _ _ _ _ _ Hc Hcount)|].
  cbn [optionsOf limit offset]. rewrite Hl, Hp.
  split; [reflexivity|]. split; [reflexivity|].
  split; [intros Hnone; rewrite Hnone in Hlt; injection Hlt as <-; reflexivity|].
  split; [intros Hnone; rewrite Hnone in Hpt; injection Hpt as <-; reflexivity|].
  split; [exact parseIntOfString_readsDecimal|].
  split; [exact fallback_ofZ|].
  exact NumberFacts.toZ_ofZ.
Qed.

(** C5: the query is ordered by [id], descending exactly when the [sort]
    parameter is the string "desc", ascending for every other value and when
    the parameter is absent. *)
Theorem list_sort_direction db req c total db1 :
  localsOf req = Resolved c ->
  gw Teacher_count db = (Resolved total, db1) ->
  exists options,
    queries (handle gw (getAllTeachers req) db) = [options] /\
    ((query req !! "sort" = Some (Js.Str "desc") /\ order options = [("id", DESC)]) \/
     (query req !! "sort" <> Some (Js.Str "desc") /\ order options = [("id", ASC)])).
Proof.
  intros Hc Hcount. exists (optionsOf c).
  split; [apply (getAllTeachers_queries _ _ _ _ _ Hc Hcount)|].
  cbn [optionsOf order].
  destruct (localsOf_sort req c Hc) as [[Hd ->] | [Hd ->]].
  - left. split; [exact Hd|reflexivity].
  - right. split; [exact Hd|reflexivity].
Qed.


(** C4: with [page >= 1] and [limit >= 1], on a gateway that honours
    [limit]: the query asks for [limit] rows from offset [(page - 1) * limit],
    which is never negative, and when it resolves the response is 200 with
    the rows it resolved to, at most [limit] of them, and with [totalPages]
    the value of [Math.ceil(total / limit)], [total] being what the
    unfiltered [count] resolved to.  The arithmetic is that of doubles; on
    safe integers it is exact: the offset is the integer [(page - 1) * limit]
    and [totalPages] the least integer whose product with [limit] reaches
    [total]. *)
Theorem list_pagination db req c total db1 :
  honoursLimit gw ->
  localsOf req = Resolved c ->
  Js.leb (Js.ofZ 1) (pageOf c) = true ->
  Js.leb (Js.ofZ 1) (limitOf c) = true ->
  gw Teacher_count db = (Resolved total, db1) ->
  let r := handle gw (getAllTeachers req) db in
  exists options,
    calls r = [Teacher_count; Teacher_findAll options] /\
    limit options = limitOf c /\
    offset options = Js.mul (Js.sub (pageOf c) (Js.ofZ 1)) (limitOf c) /\
    Js.isNegative (offset options) = false /\
    (forall P L,
       pageOf c = Js.ofZ P -> limitOf c = Js.ofZ L ->
       safe P -> safe L -> safe ((P - 1) * L) ->
       1 <= P /\ 1 <= L /\ Js.toZ (offset options) = Some ((P - 1) * L)) /\
    forall rows db2,
      gw (Teacher_findAll options) db1 = (Resolved rows, db2) ->
      responses r =
        [{| status := 200;
            payload :=
              JObj [("meta", JObj [("total", JNum total);
                                   ("page", JNum (pageOf c));
                                   ("totalPages",
                                    JNum (Js.ceil (Js.div total (limitOf c))))]);
                    ("data", JArr (map JInstance rows))] |}] /\
      (forall L, Js.toZ (limitOf c) = Some L -> Z.of_nat (length rows) <= L) /\
      (forall T L,
         total = Js.ofZ T -> limitOf c = Js.ofZ L ->
         0 <= T -> safe T -> safe L ->
         exists totalPages,
           Js.toZ (Js.ceil (Js.div total (limitOf c))) = Some totalPages /\
           (totalPages - 1) * L < T <= totalPages * L).
Proof.
  intros Hgw Hc Hpage Hlimit Hcount. cbv zeta. exists (optionsOf c).
  split; [apply (getAllTeachers_queries _ _ _ _ _ Hc Hcount)|].
  cbn [optionsOf limit offset].
  split; [reflexivity|]. split; [reflexivity|].
  split; [apply NumberFacts.offset_not_negative; assumption|].
  split.
  - intros P L HP HL HsP HsL HsO. rewrite HP in Hpage. rewrite HL in Hlimit.
    pose proof (NumberFacts.leb_one_ofZ P HsP Hpage) as HP1.
    pose proof (NumberFacts.leb_one_ofZ L HsL Hlimit) as HL1.
    split; [exact HP1|]. split; [exact HL1|].
    unfold safe in *.
    rewrite HP, HL, NumberFacts.sub_ofZ by (try reflexivity; lia).
    apply NumberFacts.mul_exact; try assumption. lia.
  - intros rows db2 Hfind.
    split; [apply (getAllTeachers_success _ _ _ _ _ _ _ Hc Hcount Hfind)|].
    split.
    + intros L HL.
      apply (Hgw _ _ _ _ L Hfind); [exact HL|].
      apply (NumberFacts.toZ_at_least_one _ _ Hlimit HL).
    + intros T L HT HL HT0 HsT HsL. rewrite HL in Hlimit.
      pose proof (NumberFacts.leb_one_ofZ L HsL Hlimit) as HL1.
      exists (ceilDiv T L). unfold safe in *. rewrite HT, HL. split.
      * apply NumberFacts.ceil_div_exact; lia.
      * apply NumberFacts.ceilDiv_bounds. lia.
Qed.
(** *** Get, update and delete by id *)

(** X2: [createTeacher], [getTeacherById], [updateTeacher] and
    [deleteTeacher] contain every gateway error: whatever the gateway does,
    their promise resolves and exactly one response is written. *)
Theorem wrapped_handlers_always_respond db req :
  Forall (fun h =>
            result (handle gw h db) = Resolved tt /\
            length (responses (handle gw h db)) = 1%nat)
         [createTeacher req; getTeacherById req; updateTeacher req; deleteTeacher req].
Proof.
  constructor; [|constructor; [|constructor; [|constructor; [|constructor]]]];
    unfold responses.
  - rewrite createTeacher_run. cbv zeta. cbn [result res_after].
    destruct (fst (gw _ db)); split; reflexivity.
  - rewrite getTeacherById_run. cbv zeta. cbn [result res_after].
    destruct (fst (gw _ db)) as [[t|]|e]; split; reflexivity.
  - rewrite updateTeacher_run. cbv zeta.
    destruct (gw _ db) as [[[t|]|e] db1]; cbn [result res_after];
      try (split; reflexivity).
    destruct (fst (gw _ db1)); split; reflexivity.
  - rewrite deleteTeacher_run. cbv zeta.
    destruct (gw _ db) as [[[t|]|e] db1]; cbn [result res_after];
      try (split; reflexivity).
    destruct (fst (gw _ db1)); split; reflexivity.
Qed.

(** X3: [getTeacherById] makes one gateway call, the lookup of the route
    parameter with the Course association always included, and answers 200
    with the instance found, 404 when there is none, 500 when the lookup is
    rejected. *)
Theorem getTeacherById_always_populates db req :
  let lookup := Teacher_findByPk (params req !! "id") [Course] in
  let r := handle gw (getTeacherById req) db in
  calls r = [lookup] /\
  responses r =
    match fst (gw lookup db) with
    | Resolved (Some t) => [{| status := 200; payload := JInstance t |}]
    | Resolved None =>
        [{| status := 404; payload := JObj [("message", JStr "Not found")] |}]
    | Rejected e =>
        [{| status := 500; payload := JObj [("error", JStr (message e))] |}]
    end.
Proof.
  cbv zeta. rewrite getTeacherById_run. cbv zeta. unfold responses.
  cbn [calls res_after]. split; [reflexivity|].
  destruct (fst (gw _ db)) as [[t|]|e]; reflexivity.
Qed.

(** C3: when the lookup by key resolves to [null], each of [getTeacherById],
    [updateTeacher] and [deleteTeacher] writes one response: 404 with
    [{ message: 'Not found' }]. *)
Theorem missing_teacher_is_404 db req :
  (forall incl,
     fst (gw (Teacher_findByPk (params req !! "id") incl) db) = Resolved None) ->
  let expected :=
    [{| status := 404; payload := JObj [("message", JStr "Not found")] |}] in
  responses (handle gw (getTeacherById req) db) = expected /\
  responses (handle gw (updateTeacher req) db) = expected /\
  responses (handle gw (deleteTeacher req) db) = expected.
Proof.
  intros Hnull. cbv zeta.
  rewrite getTeacherById_run, updateTeacher_run, deleteTeacher_run. cbv zeta.
  pose proof (Hnull [Course]) as Hget. pose proof (Hnull []) as Hupd.
  unfold responses. cbn [res_after]. rewrite Hget.
  destruct (gw (Teacher_findByPk _ []) db) as [o db1].
  cbn [fst] in Hupd. subst o. repeat split.
Qed.

(** C10: when the lookup resolves to [null] and, being a read, leaves the
    store as it is, [updateTeacher] and [deleteTeacher] make no other gateway
    call: no mutating call is made and the store after the request is the
    store before it. *)
Theorem missing_teacher_no_mutation db req h :
  gw (Teacher_findByPk (params req !! "id") []) db = (Resolved None, db) ->
  h = updateTeacher req \/ h = deleteTeacher req ->
  let r := handle gw h db in
  calls r = [Teacher_findByPk (params req !! "id") []] /\
  existsb mutating (calls r) = false /\
  db_after r = db.
Proof.
  intros Hnull [-> | ->]; cbv zeta.
  - rewrite updateTeacher_run. cbv zeta. rewrite Hnull. repeat split.
  - rewrite deleteTeacher_run. cbv zeta. rewrite Hnull. repeat split.
Qed.

End AnyGateway.

(* ===================================================================== *)
(** ** Properties on the in-memory gateway *)
(* ===================================================================== *)

Section OnMem.

Implicit Types (db : Mem.store) (req : request (gmap string string)).

Lemma Mem_findByPk_found db param incl k a :
  Mem.keyOf param = Some k ->
  Mem.teachers db !! k = Some a ->
  Mem.gw (Teacher_findByPk param incl) db =
    (Resolved (Some (Mem.load db incl (k, a))), db).
Proof.
  intros Hk Ha. cbn [Mem.gw]. unfold Mem.findByPk.
  rewrite Hk. cbn. rewrite Ha. reflexivity.
Qed.

Lemma Mem_findByPk_missing db param incl k :
  Mem.keyOf param = Some k ->
  Mem.teachers db !! k = None ->
  Mem.gw (Teacher_findByPk param incl) db = (Resolved None, db).
Proof.
  intros Hk Ha. cbn [Mem.gw]. unfold Mem.findByPk.
  rewrite Hk. cbn. rewrite Ha. reflexivity.
Qed.

(** The in-memory gateway honours [limit]. *)
Lemma Mem_honoursLimit : honoursLimit Mem.gw.
Proof.
  intros options db rows db' L. cbn [Mem.gw]. unfold Mem.findAll.
  intros Hfind HL HL0. rewrite HL in Hfind.
  destruct (Js.toZ (offset options)) as [o|]; [|discriminate].
  destruct ((L <? 0) || (o <? 0)); [discriminate|].
  injection Hfind as <- _.
  rewrite length_fmap, length_take. lia.
Qed.

Lemma patch_empty a : Mem.patch ∅ a = a.
Proof. destruct a. reflexivity. Qed.

(** C8: on the in-memory gateway, updating an existing teacher answers 200
    with the teacher after the update; each of [name] and [department] has
    the value the body gives it, or its old value when the body omits it, the
    key and every other row are as before, and with an empty body the teacher
    and the whole store are unchanged. *)
Theorem update_is_partial db req k a :
  Mem.keyOf (params req !! "id") = Some k ->
  Mem.teachers db !! k = Some a ->
  let r := handle Mem.gw (updateTeacher req) db in
  exists a',
    Mem.teachers (db_after r) !! k = Some a' /\
    responses r =
      [{| status := 200;
          payload := JInstance {| Mem.id := k; Mem.columns := a'; Mem.courses := None |} |}] /\
    Mem.name a' = default (Mem.name a) (req_body req !! "name") /\
    Mem.department a' = default (Mem.department a) (req_body req !! "department") /\
    (forall k', k' <> k ->
       Mem.teachers (db_after r) !! k' = Mem.teachers db !! k') /\
    (req_body req = ∅ -> a' = a /\ db_after r = db).
Proof.
  intros Hk Ha. cbv zeta. rewrite updateTeacher_run. cbv zeta.
  rewrite (Mem_findByPk_found _ _ _ _ _ Hk Ha).
  unfold responses. cbn.
  exists (Mem.patch (req_body req) a).
  split; [rewrite lookup_alter_eq, Ha; reflexivity|].
  do 3 (split; [reflexivity|]).
  split; [intros k' Hne; apply lookup_alter_ne; congruence|].
  intros Hempty. rewrite Hempty. split; [apply patch_empty|].
  destruct db as [ts cs n]. cbn. f_equal.
  apply alter_id. intros x _. apply patch_empty.
Qed.

(** C9: on the in-memory gateway, deleting an existing teacher answers 200
    with [{ message: 'Deleted' }] and takes the row out of the table; the
    same request again answers 404 with [{ message: 'Not found' }] and
    changes nothing. *)
Theorem delete_then_delete db req k a :
  Mem.keyOf (params req !! "id") = Some k ->
  Mem.teachers db !! k = Some a ->
  let r1 := handle Mem.gw (deleteTeacher req) db in
  let r2 := handle Mem.gw (deleteTeacher req) (db_after r1) in
  responses r1 =
    [{| status := 200; payload := JObj [("message", JStr "Deleted")] |}] /\
  Mem.teachers (db_after r1) = delete k (Mem.teachers db) /\
  Mem.teachers (db_after r1) !! k = None /\
  responses r2 =
    [{| status := 404; payload := JObj [("message", JStr "Not found")] |}] /\
  db_after r2 = db_after r1.
Proof.
  intros Hk Ha. cbv zeta.
  assert (handle Mem.gw (deleteTeacher req) db =
          {| result := Resolved tt;
             db_after := {| Mem.teachers := delete k (Mem.teachers db);
                            Mem.course_rows := Mem.course_rows db;
                            Mem.next_id := Mem.next_id db |};
             res_after :=
               {| statusCode := 200;
                  sent := [{| status := 200;
                              payload := JObj [("message", JStr "Deleted")] |}] |};
             calls := [Teacher_findByPk (params req !! "id") [];
                       instance_destroy (Mem.load db [] (k, a))] |}) as ->.
  { rewrite deleteTeacher_run. cbv zeta.
    rewrite (Mem_findByPk_found _ _ _ _ _ Hk Ha). reflexivity. }
  cbn [db_after responses res_after sent Mem.teachers].
  rewrite deleteTeacher_run. cbv zeta.
  rewrite (Mem_findByPk_missing _ _ _ k Hk) by apply lookup_delete_eq.
  rewrite lookup_delete_eq. repeat split.
Qed.

End OnMem.

(* ===================================================================== *)
(** ** Further properties of the handlers, for any gateway *)
(* ===================================================================== *)

Section AnyGatewayMore.

Context {instance body store : Type}.
Variable gw : gateway instance body store.

Implicit Types (db : store) (req : request body) (e : error) (c : locals).

(** *** List *)

(** X4: [getAllTeachers] writes a response, and exactly one, exactly when
    lines 113-116 complete and the count resolves: then its promise
    resolves.  When the count is rejected nothing is written and the promise
    is rejected with the same error.  When one of lines 113-116 throws, no
    gateway call is made, nothing is written and the promise is rejected
    with what was thrown: this is what happens when [populate] is an array
    or an object (a repeated or a bracketed key), never when [limit], [page]
    and [populate] are absent or strings. *)
Theorem list_responds_iff_count_resolves db req :
  let r := handle gw (getAllTeachers req) db in
  ((length (responses r) = 1%nat /\ result r = Resolved tt /\
    exists c total,
      localsOf req = Resolved c /\ fst (gw Teacher_count db) = Resolved total) \/
   (responses r = [] /\
    exists c e,
      localsOf req = Resolved c /\ fst (gw Teacher_count db) = Rejected e /\
      result r = Rejected e /\ calls r = [Teacher_count]) \/
   (responses r = [] /\
    exists e, localsOf req = Rejected e /\ result r = Rejected e /\ calls r = [])) /\
  (~ plain (query req !! "populate") ->
   responses r = [] /\ calls r = [] /\ exists e, result r = Rejected e) /\
  (plain (query req !! "limit") -> plain (query req !! "page") ->
   plain (query req !! "populate") ->
   exists c, localsOf req = Resolved c).
Proof.
  cbv zeta. split; [|split].
  - rewrite getAllTeachers_run. unfold responses.
    destruct (localsOf req) as [c|e0].
    + destruct (gw Teacher_count db) as [[total|e] db1]; cbn [fst].
      * left. cbv zeta. cbn [result res_after].
        split; [destruct (fst (gw _ db1)); reflexivity|].
        split; [reflexivity|]. exists c, total. split; reflexivity.
      * right; left. cbn [result res_after fresh_res sent calls].
        split; [reflexivity|]. exists c, e. repeat split.
    + right; right. cbn [result res_after fresh_res sent calls].
      split; [reflexivity|]. exists e0. repeat split.
  - intros Hp. destruct (localsOf_populate_not_plain req Hp) as [e He].
    rewrite getAllTeachers_run, He. unfold responses.
    cbn [result res_after fresh_res sent calls].
    split; [reflexivity|]. split; [reflexivity|]. exists e. reflexivity.
  - apply localsOf_plain.
Qed.

(** X5: whatever [page] and [limit] are, when the count and the query both
    resolve the response is 200 with [total] the count, [page] the page
    constant, [data] the rows of the query as they came, and [totalPages]
    the value of [Math.ceil(total / limit)].  [limit] is never NaN or zero;
    for a safe count and a safe positive limit [totalPages] is the ceiling
    of the quotient, and for an infinite limit it is zero. *)
Theorem list_success_any_page_and_limit db req c total db1 rows db2 :
  localsOf req = Resolved c ->
  gw Teacher_count db = (Resolved total, db1) ->
  gw (Teacher_findAll (optionsOf c)) db1 = (Resolved rows, db2) ->
  let r := handle gw (getAllTeachers req) db in
  let totalPages := Js.ceil (Js.div total (limitOf c)) in
  result r = Resolved tt /\
  db_after r = db2 /\
  responses r =
    [{| status := 200;
        payload :=
          JObj [("meta", JObj [("total", JNum total);
                               ("page", JNum (pageOf c));
                               ("totalPages", JNum totalPages)]);
                ("data", JArr (map JInstance rows))] |}] /\
  Js.truthyNumber (limitOf c) = true /\
  (forall T, total = Js.ofZ T -> 0 <= T -> safe T ->
     (forall L, limitOf c = Js.ofZ L -> 0 < L -> safe L ->
        exists pages, Js.toZ totalPages = Some pages /\
                      (pages - 1) * L < T <= pages * L) /\
     (limitOf c = Js.Infinity false -> totalPages = Js.Zero false)).
Proof.
  intros Hc Hcount Hfind. cbv zeta.
  destruct (getAllTeachers_success gw _ _ _ _ _ _ _ Hc Hcount Hfind) as (Hres & Hdb & Hresp).
  split; [exact Hres|]. split; [exact Hdb|]. split; [exact Hresp|].
  split; [apply (localsOf_truthy req c Hc)|].
  intros T -> HT HsT. unfold safe in *. split.
  - intros L -> HL HsL. exists (ceilDiv T L). split.
    + apply NumberFacts.ceil_div_exact; lia.
    + apply NumberFacts.ceilDiv_bounds. exact HL.
  - intros ->. apply NumberFacts.ceil_div_infinity; assumption.
Qed.

(** X6: the offset of the query, for safe integers: with [page] the integer
    [P] and [limit] the integer [L], neither of which is ever zero (a zero
    is replaced by the default), the offset is the integer [(P - 1) * L],
    negative exactly when [P] is negative and [L] positive, or [P] is above
    1 and [L] negative. *)
Theorem list_offset_sign db req c total db1 P L :
  localsOf req = Resolved c ->
  gw Teacher_count db = (Resolved total, db1) ->
  pageOf c = Js.ofZ P ->
  limitOf c = Js.ofZ L ->
  safe P -> safe (P - 1) -> safe L -> safe ((P - 1) * L) ->
  exists options,
    queries (handle gw (getAllTeachers req) db) = [options] /\
    Js.toZ (offset options) = Some ((P - 1) * L) /\
    P <> 0 /\ L <> 0 /\
    ((P - 1) * L < 0 <-> (P < 0 /\ 0 < L) \/ (1 < P /\ L < 0)).
Proof.
  intros Hc Hcount HP HL HsP HsP1 HsL HsO. exists (optionsOf c).
  split; [apply (getAllTeachers_queries gw _ _ _ _ _ Hc Hcount)|].
  cbn [optionsOf offset].
  destruct (localsOf_truthy req c Hc) as [HtL HtP].
  rewrite HL in HtL. rewrite HP in HtP.
  pose proof (NumberFacts.truthy_ofZ _ HtL) as HL0.
  pose proof (NumberFacts.truthy_ofZ _ HtP) as HP0.
  unfold safe in *.
  split.
  - rewrite HP, HL, NumberFacts.sub_ofZ by (try reflexivity; assumption).
    apply NumberFacts.mul_exact; assumption.
  - split; [exact HP0|]. split; [exact HL0|]. nia.
Qed.

(** X7: the query includes the Course association once for each token of
    [populate] that is "course" up to case: repeated tokens give repeated
    associations, nothing is deduplicated. *)
Theorem list_include_counts_tokens db req c total db1 :
  localsOf req = Resolved c ->
  gw Teacher_count db = (Resolved total, db1) ->
  exists options,
    queries (handle gw (getAllTeachers req) db) = [options] /\
    length (include options) = length (courseTokens (query req !! "populate")).
Proof.
  intros Hc Hcount. exists (optionsOf c).
  split; [apply (getAllTeachers_queries gw _ _ _ _ _ Hc Hcount)|].
  cbn [optionsOf include]. apply (includeOf_courseTokens req c Hc).
Qed.

(** X15: [limit] and [page] are read from the numeral a parameter starts
    with; text after it is ignored, not refused: a parameter made of the
    decimal form of a non-zero integer [z] and then anything that does not
    go on with a digit gives the double nearest to [z], which is [z] itself
    when [z] is a safe integer. *)
Theorem list_limit_ignores_trailing_text db req c total db1 z rest :
  localsOf req = Resolved c ->
  gw Teacher_count db = (Resolved total, db1) ->
  z <> 0 ->
  endsNumeral rest = true ->
  query req !! "limit" = Some (Js.Str (pretty z +:+ rest)) ->
  exists options,
    queries (handle gw (getAllTeachers req) db) = [options] /\
    limit options = Js.ofZ z /\
    (safe z -> Js.toZ (limit options) = Some z).
Proof.
  intros Hc Hcount Hz Hrest Hq. exists (optionsOf c).
  split; [apply (getAllTeachers_queries gw _ _ _ _ _ Hc Hcount)|].
  cbn [optionsOf limit].
  destruct (localsOf_numbers req c Hc) as (limitText & pageText & Hlt & _ & -> & _).
  rewrite Hq in Hlt. injection Hlt as <-.
  rewrite (parseIntOfString_pretty_suffix z rest Hz Hrest), (fallback_ofZ z 10 Hz).
  split; [reflexivity|]. apply NumberFacts.toZ_ofZ.
Qed.

(** *** Update and delete *)

(** X8: when the lookup finds a teacher, [updateTeacher] calls [update] on
    that instance with the request body as it came, and nothing else; the
    response is 200 with the instance the update resolved to, or 500 with
    the message of the error it was rejected with. *)
Theorem updateTeacher_found db req t db1 :
  gw (Teacher_findByPk (params req !! "id") []) db = (Resolved (Some t), db1) ->
  let call := instance_update t (req_body req) in
  let r := handle gw (updateTeacher req) db in
  calls r = [Teacher_findByPk (params req !! "id") []; call] /\
  db_after r = snd (gw call db1) /\
  responses r =
    match fst (gw call db1) with
    | Resolved updated => [{| status := 200; payload := JInstance updated |}]
    | Rejected e =>
        [{| status := 500; payload := JObj [("error", JStr (message e))] |}]
    end.
Proof.
  intros Hfound. cbv zeta. rewrite updateTeacher_run. cbv zeta.
  rewrite Hfound. unfold responses. cbn [calls db_after res_after].
  split; [reflexivity|]. split; [reflexivity|].
  destruct (fst (gw _ db1)); reflexivity.
Qed.

(** X9: when the lookup finds a teacher, [deleteTeacher] calls [destroy] on
    that instance, and nothing else; the response is 200 with
    [{ message: 'Deleted' }], or 500 with the message of the error the
    destroy was rejected with. *)
Theorem deleteTeacher_found db req t db1 :
  gw (Teacher_findByPk (params req !! "id") []) db = (Resolved (Some t), db1) ->
  let call := instance_destroy t in
  let r := handle gw (deleteTeacher req) db in
  calls r = [Teacher_findByPk (params req !! "id") []; call] /\
  db_after r = snd (gw call db1) /\
  responses r =
    match fst (gw call db1) with
    | Resolved _ =>
        [{| status := 200; payload := JObj [("message", JStr "Deleted")] |}]
    | Rejected e =>
        [{| status := 500; payload := JObj [("error", JStr (message e))] |}]
    end.
Proof.
  intros Hfound. cbv zeta. rewrite deleteTeacher_run. cbv zeta.
  rewrite Hfound. unfold responses. cbn [calls db_after res_after].
  split; [reflexivity|]. split; [reflexivity|].
  destruct (fst (gw _ db1)); reflexivity.
Qed.

(** X10: when the lookup itself is rejected, [getTeacherById],
    [updateTeacher] and [deleteTeacher] answer 500 with the message of the
    error and make no other gateway call: no update, no destroy. *)
Theorem lookup_rejection_is_500 db req e db1 :
  (forall incl,
     gw (Teacher_findByPk (params req !! "id") incl) db = (Rejected e, db1)) ->
  Forall (fun h =>
            responses (handle gw h db) =
              [{| status := 500; payload := JObj [("error", JStr (message e))] |}] /\
            length (calls (handle gw h db)) = 1%nat /\
            existsb mutating (calls (handle gw h db)) = false /\
            db_after (handle gw h db) = db1)
         [getTeacherById req; updateTeacher req; deleteTeacher req].
Proof.
  intros Hrej.
  constructor; [|constructor; [|constructor; [|constructor]]].
  - rewrite getTeacherById_run. cbv zeta. rewrite (Hrej [Course]).
    repeat split.
  - rewrite updateTeacher_run. cbv zeta. rewrite (Hrej []). repeat split.
  - rewrite deleteTeacher_run. cbv zeta. rewrite (Hrej []). repeat split.
Qed.

(** *** All five handlers *)

(** X11: no retries and no second write: whatever the gateway does, a
    request makes at most two gateway calls, and at most one of them is
    mutating; [getAllTeachers] and [getTeacherById] make none that is. *)
Theorem calls_are_few db req :
  Forall (fun h =>
            (length (calls (handle gw h db)) <= 2)%nat /\
            (length (List.filter mutating (calls (handle gw h db))) <= 1)%nat)
         [createTeacher req; getAllTeachers req; getTeacherById req;
          updateTeacher req; deleteTeacher req] /\
  existsb mutating (calls (handle gw (getAllTeachers req) db)) = false /\
  existsb mutating (calls (handle gw (getTeacherById req) db)) = false.
Proof.
  split; [|split].
  - constructor; [|constructor; [|constructor; [|constructor; [|constructor;
      [|constructor]]]]].
    + rewrite createTeacher_run. cbv zeta. cbn. lia.
    + rewrite getAllTeachers_run.
      destruct (localsOf req) as [c|e0]; [|cbn; lia].
      destruct (gw Teacher_count db) as [[total|e] db1]; cbn; lia.
    + rewrite getTeacherById_run. cbv zeta. cbn. lia.
    + rewrite updateTeacher_run. cbv zeta.
      destruct (gw _ db) as [[[t|]|e] db1]; cbn; lia.
    + rewrite deleteTeacher_run. cbv zeta.
      destruct (gw _ db) as [[[t|]|e] db1]; cbn; lia.
  - rewrite getAllTeachers_run.
    destruct (localsOf req) as [c|e0]; [|reflexivity].
    destruct (gw Teacher_count db) as [[total|e] db1]; reflexivity.
  - rewrite getTeacherById_run. reflexivity.
Qed.

(** X12: on a gateway whose reads leave the store alone, [getAllTeachers]
    and [getTeacherById] leave the store as it was, whatever they answer. *)
Theorem read_handlers_preserve_store db req :
  readsPreserve gw ->
  db_after (handle gw (getAllTeachers req) db) = db /\
  db_after (handle gw (getTeacherById req) db) = db.
Proof.
  intros Hreads. split.
  - rewrite getAllTeachers_run.
    destruct (localsOf req) as [c|e0]; [|reflexivity].
    pose proof (Hreads Teacher_count db eq_refl) as Hc.
    destruct (gw Teacher_count db) as [[total|e] db1]; cbn [snd] in Hc; subst db1.
    + cbv zeta. cbn [db_after]. apply Hreads. reflexivity.
    + reflexivity.
  - rewrite getTeacherById_run. cbv zeta. cbn [db_after].
    apply Hreads. reflexivity.
Qed.

(** X13: the status codes each handler can answer with: 201 or 500 for
    [createTeacher]; 200 or 500, or no response at all, for
    [getAllTeachers]; 200, 404 or 500 for the three handlers by id. *)
Theorem handler_statuses db req :
  (statuses (handle gw (createTeacher req) db) = [201] \/
   statuses (handle gw (createTeacher req) db) = [500]) /\
  (statuses (handle gw (getAllTeachers req) db) = [200] \/
   statuses (handle gw (getAllTeachers req) db) = [500] \/
   statuses (handle gw (getAllTeachers req) db) = []) /\
  Forall (fun h =>
            statuses (handle gw h db) = [200] \/
            statuses (handle gw h db) = [404] \/
            statuses (handle gw h db) = [500])
         [getTeacherById req; updateTeacher req; deleteTeacher req].
Proof.
  unfold statuses, responses. split; [|split].
  - rewrite createTeacher_run. cbv zeta. cbn [res_after].
    destruct (fst (gw _ db)); [left|right]; reflexivity.
  - rewrite getAllTeachers_run.
    destruct (localsOf req) as [c|e0]; [|right; right; reflexivity].
    destruct (gw Teacher_count db) as [[total|e] db1]; [|right; right; reflexivity].
    cbv zeta. cbn [res_after].
    destruct (fst (gw _ db1)); [left|right; left]; reflexivity.
  - constructor; [|constructor; [|constructor; [|constructor]]].
    + rewrite getTeacherById_run. cbv zeta. cbn [res_after].
      destruct (fst (gw _ db)) as [[t|]|e];
        [left|right; left|right; right]; reflexivity.
    + rewrite updateTeacher_run. cbv zeta.
      destruct (gw _ db) as [[[t|]|e] db1]; cbn [res_after];
        [|right; left; reflexivity|right; right; reflexivity].
      destruct (fst (gw _ db1)); [left|right; right]; reflexivity.
    + rewrite deleteTeacher_run. cbv zeta.
      destruct (gw _ db) as [[[t|]|e] db1]; cbn [res_after];
        [|right; left; reflexivity|right; right; reflexivity].
      destruct (fst (gw _ db1)); [left|right; right]; reflexivity.
Qed.

(** X14: the error envelopes are kept apart: every response any of the five
    handlers writes with status 404 carries [{ message: 'Not found' }],
    every one with status 500 carries [{ error: <string> }], and no other
    status than 200, 201, 404 and 500 is used. *)
Theorem handler_envelopes db req :
  Forall (fun h => Forall envelope (responses (handle gw h db)))
         [createTeacher req; getAllTeachers req; getTeacherById req;
          updateTeacher req; deleteTeacher req].
Proof.
  assert (H200 : forall j : json instance, envelope {| status := 200; payload := j |})
    by (intros j; left; reflexivity).
  assert (H201 : forall j : json instance, envelope {| status := 201; payload := j |})
    by (intros j; right; left; reflexivity).
  assert (H404 : envelope (@notFound instance))
    by (right; right; left; split; reflexivity).
  assert (H500 : forall e, envelope (@serverError instance e))
    by (intros e; right; right; right; split; [reflexivity|eexists; reflexivity]).
  unfold responses.
  constructor; [|constructor; [|constructor; [|constructor; [|constructor;
    [|constructor]]]]].
  - rewrite createTeacher_run. cbv zeta. cbn [res_after].
    destruct (fst (gw _ db)); cbn [sent]; (constructor; [solve [auto]|constructor]).
  - rewrite getAllTeachers_run.
    destruct (localsOf req) as [c|e0]; [|constructor].
    destruct (gw Teacher_count db) as [[total|e] db1]; [|constructor].
    cbv zeta. cbn [res_after].
    destruct (fst (gw _ db1)); cbn [sent]; (constructor; [solve [auto]|constructor]).
  - rewrite getTeacherById_run. cbv zeta. cbn [res_after].
    destruct (fst (gw _ db)) as [[t|]|e]; cbn [sent]; (constructor; [solve [auto]|constructor]).
  - rewrite updateTeacher_run. cbv zeta.
    destruct (gw _ db) as [[[t|]|e] db1]; cbn [res_after sent];
      try (constructor; [solve [auto]|constructor]; fail).
    destruct (fst (gw _ db1)); cbn [sent]; (constructor; [solve [auto]|constructor]).
  - rewrite deleteTeacher_run. cbv zeta.
    destruct (gw _ db) as [[[t|]|e] db1]; cbn [res_after sent];
      try (constructor; [solve [auto]|constructor]; fail).
    destruct (fst (gw _ db1)); cbn [sent]; (constructor; [solve [auto]|constructor]).
Qed.

End AnyGatewayMore.

(** The in-memory gateway's reads are reads. *)
Lemma Mem_readsPreserve : readsPreserve Mem.gw.
Proof.
  intros c db Hc. destruct c; try discriminate; cbn [Mem.gw].
  - reflexivity.
  - unfold Mem.findAll.
    destruct (Js.toZ (limit options)) as [l|]; [|reflexivity].
    destruct (Js.toZ (offset options)) as [o|]; [|reflexivity].
    destruct (_ || _); reflexivity.
  - reflexivity.
Qed.

(* ===================================================================== *)
(** ** The statements on concrete requests *)
(* ===================================================================== *)

(** Parameters out of the ordinary, as [parseInt] reads them: a no-break
    space before the numeral is skipped; an integer above [2^53] is rounded
    to a double; a numeral beyond the doubles is infinite; a [0x] prefix
    selects radix 16; what follows the numeral is ignored; a repeated key
    (an array) is read from its first element; an object reads as NaN, or
    throws when it has a [toString] key. *)
Example unusual_parameters :
  Js.parseIntOfString (String (ascii_of_nat 160) "5") = Js.ofZ 5 /\
  Js.parseIntOfString "9007199254740993" = Js.Finite (2 ^ 52) 1 /\
  Js.toZ (Js.parseIntOfString "9007199254740993") = Some 9007199254740992 /\
  Js.parseIntOfString Sample.googolish = Js.Infinity false /\
  Js.parseIntOfString "0x1F" = Js.ofZ 31 /\
  Js.parseIntOfString "  -12abc" = Js.ofZ (-12) /\
  Js.parseIntOfString "1e3" = Js.ofZ 1 /\
  Js.parseIntOfString "5a" = Js.ofZ 5 /\
  Js.parseIntOfString "- 5" = Js.NaN /\
  Js.parseIntOfString "-0" = Js.Zero true /\
  Js.toZ (Js.ofZ 5) = Some 5 /\
  Js.parseInt (Some (Js.Arr [Js.Str "7"; Js.Str "8"])) = Resolved (Js.ofZ 7) /\
  Js.parseInt (Some (Js.Obj [("a", Js.Str "1")])) = Resolved Js.NaN /\
  Js.parseInt (Some (Js.Obj [("toString", Js.Str "1")])) =
    Rejected (Error "Cannot convert object to primitive value") /\
  Js.parseInt None = Resolved Js.NaN.
Proof. repeat apply conj; vm_compute; reflexivity. Qed.

(** A limit beyond the doubles: the query asks for infinitely many rows
    from the offset NaN (zero times infinity). *)
Example infinite_limit :
  let req := Sample.request [("limit", Sample.googolish)] [] [] in
  queries (handle Mem.gw (getAllTeachers req) Sample.school) =
    [{| limit := Js.Infinity false; offset := Js.NaN;
        order := [("id", ASC)]; include := [] |}].
Proof. vm_compute. reflexivity. Qed.

(** With the database out of reach, a list request ends in a rejected
    promise and an untouched [res]. *)
Lemma count_rejection_escapes_unreachable :
  let r := handle Mem.unreachable (getAllTeachers (Sample.request [] [] [])) Mem.empty in
  result r = Rejected (Error "connect ECONNREFUSED") /\
  responses r = [] /\
  calls r = [Teacher_count].
Proof.
  exact (count_rejection_escapes Mem.unreachable Mem.empty
           (Sample.request [] [] [])
           {| limitOf := Js.ofZ 10; pageOf := Js.ofZ 1; sortOf := ASC; populateOf := "" |}
           _ Mem.empty eq_refl eq_refl).
Defined.

(** C2 as stated fails at [?limit=0&page=0]: [parseInt] reads zero from
    both, yet the query has limit 10 and offset 0 and the response says page
    1; the zeros were replaced by the defaults. *)
Lemma zero_limit_and_page_are_replaced :
  let req := Sample.request [("limit", "0"); ("page", "0")] [] [] in
  let r := handle Mem.gw (getAllTeachers req) Mem.empty in
  Js.parseInt (query req !! "limit") = Resolved (Js.Zero false) /\
  Js.parseInt (query req !! "page") = Resolved (Js.Zero false) /\
  queries r =
    [{| limit := Js.ofZ 10; offset := Js.Zero false;
        order := [("id", ASC)]; include := [] |}] /\
  Js.toZ (Js.ofZ 10) = Some 10 /\
  responses r =
    [{| status := 200;
        payload := JObj [("meta", JObj [("total", JNum (Js.Zero false));
                                        ("page", JNum (Js.ofZ 1));
                                        ("totalPages", JNum (Js.Zero false))]);
                         ("data", JArr [])] |}] /\
  Js.toZ (Js.ofZ 1) = Some 1.
Proof. cbv zeta. repeat apply conj; vm_compute; reflexivity. Qed.

(** [?limit=-5&page=abc]: the negative limit goes into the query as it is,
    the page without numeral becomes 1, and the offset is [(1 - 1) * -5],
    the negative zero. *)
Lemma list_limit_page_fallback_negative :
  let req := Sample.request [("limit", "-5"); ("page", "abc")] [] [] in
  let r := handle Mem.gw (getAllTeachers req) Sample.school in
  Mem.gw Teacher_count Sample.school = (Resolved (Js.ofZ 3), Sample.school) /\
  Js.parseIntOfString "-5" = Js.Finite (-5629499534213120) (-50) /\
  Js.parseIntOfString "abc" = Js.NaN /\
  exists options,
    queries r = [options] /\
    limit options = Js.Finite (-5629499534213120) (-50) /\
    Js.toZ (limit options) = Some (-5) /\
    offset options = Js.Zero true.
Proof.
  cbv zeta.
  split; [reflexivity|]. split; [vm_compute; reflexivity|].
  split; [vm_compute; reflexivity|].
  destruct (list_limit_page_fallback Mem.gw Sample.school
              (Sample.request [("limit", "-5"); ("page", "abc")] [] [])
              {| limitOf := Js.ofZ (-5); pageOf := Js.ofZ 1; sortOf := ASC;
                 populateOf := "" |}
              (Js.ofZ 3) Sample.school
              ltac:(vm_compute; reflexivity) ltac:(vm_compute; reflexivity))
    as (limitText & pageText & options & Hlt & Hpt & Hq & Hlimit & Hoffset & _).
  vm_compute in Hlt. injection Hlt as <-.
  vm_compute in Hpt. injection Hpt as <-.
  exists options. split; [exact Hq|].
  rewrite Hoffset, Hlimit.
  repeat apply conj; vm_compute; reflexivity.
Defined.

Lemma list_sort_direction_desc :
  let req := Sample.request [("sort", "desc")] [] [] in
  Mem.gw Teacher_count Sample.school = (Resolved (Js.ofZ 3), Sample.school) /\
  exists options,
    queries (handle Mem.gw (getAllTeachers req) Sample.school) = [options] /\
    ((query req !! "sort" = Some (Js.Str "desc") /\ order options = [("id", DESC)]) \/
     (query req !! "sort" <> Some (Js.Str "desc") /\ order options = [("id", ASC)])).
Proof.
  cbv zeta. split; [reflexivity|].
  exact (list_sort_direction Mem.gw Sample.school
           (Sample.request [("sort", "desc")] [] [])
           {| limitOf := Js.ofZ 10; pageOf := Js.ofZ 1; sortOf := DESC; populateOf := "" |}
           (Js.ofZ 3) Sample.school eq_refl eq_refl).
Defined.



(** The include set of some [populate] parameters: the token "course" in
    any case asks for the courses, once each time it occurs; other tokens,
    an empty parameter and an absent one ask for nothing. *)
Example populate_samples :
  map (fun p =>
         queries (handle Mem.gw
                    (getAllTeachers (Sample.request [("populate", p)] [] []))
                    Sample.school))
      ["course"; "Course,COURSE"; "courses,teacher"; "course,"; ""]
  = map (fun i => [{| limit := Js.ofZ 10; offset := Js.Zero false;
                      order := [("id", ASC)]; include := i |}])
        [[Course]; [Course; Course]; []; [Course]; []] /\
  queries (handle Mem.gw (getAllTeachers (Sample.request [] [] [])) Sample.school)
  = [{| limit := Js.ofZ 10; offset := Js.Zero false;
        order := [("id", ASC)]; include := [] |}].
Proof. split; vm_compute; reflexivity. Qed.

(** [?page=2&limit=2] on three teachers: the query asks for 2 rows from
    offset 2, the third teacher is the page, and there are 2 pages. *)
Lemma list_pagination_second_page :
  let req := Sample.request [("page", "2"); ("limit", "2")] [] [] in
  let r := handle Mem.gw (getAllTeachers req) Sample.school in
  let third := {| Mem.id := 3; Mem.columns := Sample.carol; Mem.courses := None |} in
  exists options,
    calls r = [Teacher_count; Teacher_findAll options] /\
    Js.toZ (limit options) = Some 2 /\
    Js.toZ (offset options) = Some ((2 - 1) * 2) /\
    responses r =
      [{| status := 200;
          payload :=
            JObj [("meta", JObj [("total", JNum (Js.ofZ 3));
                                 ("page", JNum (Js.ofZ 2));
                                 ("totalPages", JNum (Js.ofZ 2))]);
                  ("data", JArr [JInstance third])] |}] /\
    Js.toZ (Js.ofZ 3) = Some 3 /\
    Js.toZ (Js.ofZ 2) = Some 2 /\
    (Z.of_nat (length [third]) <= 2).
Proof.
  cbv zeta.
  pose (c := {| limitOf := Js.ofZ 2; pageOf := Js.ofZ 2; sortOf := ASC; populateOf := "" |}).
  destruct (list_pagination Mem.gw Sample.school
              (Sample.request [("page", "2"); ("limit", "2")] [] [])
              c (Js.ofZ 3) Sample.school Mem_honoursLimit
              ltac:(vm_compute; reflexivity) ltac:(vm_compute; reflexivity)
              ltac:(vm_compute; reflexivity) ltac:(vm_compute; reflexivity))
    as (options & Hcalls & Hlimit & Hoffset & Hsign & Hint & Hrows).
  exists options. split; [exact Hcalls|].
  destruct (Hint 2 2 eq_refl eq_refl) as (_ & _ & Hoff);
    [unfold safe; lia|unfold safe; lia|unfold safe; lia|].
  assert (Hfind : Mem.gw (Teacher_findAll options) Sample.school =
                    (Resolved [{| Mem.id := 3; Mem.columns := Sample.carol;
                                  Mem.courses := None |}], Sample.school)).
  { assert (Hopt : optionsOf c = options).
    { assert (Hc : calls (handle Mem.gw
                            (getAllTeachers
                               (Sample.request [("page", "2"); ("limit", "2")] [] []))
                            Sample.school)
                   = [Teacher_count; Teacher_findAll (optionsOf c)])
        by (vm_compute; reflexivity).
      rewrite Hc in Hcalls. injection Hcalls as Hopt. exact Hopt. }
    rewrite <- Hopt. vm_compute. reflexivity. }
  destruct (Hrows _ _ Hfind) as (Hresp & Hlen & _).
  split; [rewrite Hlimit; vm_compute; reflexivity|].
  split; [exact Hoff|].
  split; [rewrite Hresp; vm_compute; reflexivity|].
  split; [vm_compute; reflexivity|].
  split; [vm_compute; reflexivity|].
  apply (Hlen 2). vm_compute. reflexivity.
Defined.

Lemma missing_teacher_is_404_unknown_key :
  let req := Sample.request [] [("id", "7")] [("name", "Dan")] in
  let expected :=
    [{| status := 404; payload := JObj [("message", JStr "Not found")] |}] in
  (forall incl,
     fst (Mem.gw (Teacher_findByPk (params req !! "id") incl) Sample.school)
     = Resolved None) /\
  responses (handle Mem.gw (getTeacherById req) Sample.school) = expected /\
  responses (handle Mem.gw (updateTeacher req) Sample.school) = expected /\
  responses (handle Mem.gw (deleteTeacher req) Sample.school) = expected.
Proof.
  cbv zeta.
  assert (Hnull : forall incl,
             fst (Mem.gw (Teacher_findByPk
                            (params (Sample.request [] [("id", "7")] [("name", "Dan")]) !! "id")
                            incl) Sample.school) = Resolved None)
    by (intros incl; reflexivity).
  split; [exact Hnull|].
  exact (missing_teacher_is_404 Mem.gw Sample.school
           (Sample.request [] [("id", "7")] [("name", "Dan")]) Hnull).
Defined.

Lemma missing_teacher_no_mutation_unknown_key :
  let req := Sample.request [] [("id", "7")] [("name", "Dan")] in
  let r := handle Mem.gw (updateTeacher req) Sample.school in
  Mem.gw (Teacher_findByPk (params req !! "id") []) Sample.school
    = (Resolved None, Sample.school) /\
  calls r = [Teacher_findByPk (params req !! "id") []] /\
  existsb mutating (calls r) = false /\
  db_after r = Sample.school.
Proof.
  cbv zeta. split; [reflexivity|].
  exact (missing_teacher_no_mutation Mem.gw Sample.school
           (Sample.request [] [("id", "7")] [("name", "Dan")])
           (updateTeacher (Sample.request [] [("id", "7")] [("name", "Dan")]))
           eq_refl (or_introl eq_refl)).
Defined.

Lemma update_is_partial_department_only :
  let req := Sample.request [] [("id", "2")] [("department", "Physics")] in
  let r := handle Mem.gw (updateTeacher req) Sample.school in
  (Mem.keyOf (params req !! "id") = Some 2 /\
   Mem.teachers Sample.school !! 2 = Some Sample.bob) /\
  exists a',
    Mem.teachers (db_after r) !! 2 = Some a' /\
    responses r =
      [{| status := 200;
          payload := JInstance {| Mem.id := 2; Mem.columns := a'; Mem.courses := None |} |}] /\
    Mem.name a' = "Bob" /\
    Mem.department a' = "Physics" /\
    (forall k', k' <> 2 ->
       Mem.teachers (db_after r) !! k' = Mem.teachers Sample.school !! k') /\
    (req_body req = ∅ -> a' = Sample.bob /\ db_after r = Sample.school).
Proof.
  cbv zeta. split; [split; reflexivity|].
  exact (update_is_partial Sample.school
           (Sample.request [] [("id", "2")] [("department", "Physics")])
           2 Sample.bob eq_refl eq_refl).
Defined.

Lemma delete_then_delete_bob :
  let req := Sample.request [] [("id", "2")] [] in
  let r1 := handle Mem.gw (deleteTeacher req) Sample.school in
  let r2 := handle Mem.gw (deleteTeacher req) (db_after r1) in
  (Mem.keyOf (params req !! "id") = Some 2 /\
   Mem.teachers Sample.school !! 2 = Some Sample.bob) /\
  responses r1 =
    [{| status := 200; payload := JObj [("message", JStr "Deleted")] |}] /\
  Mem.teachers (db_after r1) = delete 2 (Mem.teachers Sample.school) /\
  Mem.teachers (db_after r1) !! 2 = None /\
  responses r2 =
    [{| status := 404; payload := JObj [("message", JStr "Not found")] |}] /\
  db_after r2 = db_after r1.
Proof.
  cbv zeta. split; [split; reflexivity|].
  exact (delete_then_delete Sample.school
           (Sample.request [] [("id", "2")] []) 2 Sample.bob eq_refl eq_refl).
Defined.

(** A negative page makes the offset negative; the in-memory gateway
    rejects such a query, and the handler answers 500. *)
Lemma findAll_rejection_contained_negative_page :
  let req := Sample.request [("page", "-1")] [] [] in
  let c := {| limitOf := Js.ofZ 10; pageOf := Js.ofZ (-1); sortOf := ASC;
              populateOf := "" |} in
  let r := handle Mem.gw (getAllTeachers req) Sample.school in
  (localsOf req = Resolved c /\
   Mem.gw Teacher_count Sample.school = (Resolved (Js.ofZ 3), Sample.school) /\
   Js.toZ (offset (optionsOf c)) = Some (-20) /\
   Mem.gw (Teacher_findAll (optionsOf c)) Sample.school
     = (Rejected (Error "malformed query"), Sample.school)) /\
  result r = Resolved tt /\
  responses r =
    [{| status := 500; payload := JObj [("error", JStr "malformed query")] |}].
Proof.
  cbv zeta.
  split; [repeat apply conj; vm_compute; reflexivity|].
  exact (findAll_rejection_contained Mem.gw Sample.school
           (Sample.request [("page", "-1")] [] [])
           {| limitOf := Js.ofZ 10; pageOf := Js.ofZ (-1); sortOf := ASC;
              populateOf := "" |}
           (Js.ofZ 3) Sample.school
           (Error "malformed query") Sample.school
           ltac:(vm_compute; reflexivity) ltac:(vm_compute; reflexivity)
           ltac:(vm_compute; reflexivity)).
Defined.

(** [?limit=2] on three teachers: the first two, on page 1 of 2. *)
Lemma list_success_first_page :
  let req := Sample.request [("limit", "2")] [] [] in
  let r := handle Mem.gw (getAllTeachers req) Sample.school in
  let rows :=
    [{| Mem.id := 1; Mem.columns := Sample.alice; Mem.courses := None |};
     {| Mem.id := 2; Mem.columns := Sample.bob; Mem.courses := None |}] in
  result r = Resolved tt /\
  db_after r = Sample.school /\
  responses r =
    [{| status := 200;
        payload :=
          JObj [("meta", JObj [("total", JNum (Js.ofZ 3));
                               ("page", JNum (Js.ofZ 1));
                               ("totalPages", JNum (Js.ofZ 2))]);
                ("data", JArr (map JInstance rows))] |}] /\
  exists pages, Js.toZ (Js.ofZ 2) = Some pages /\ (pages - 1) * 2 < 3 <= pages * 2.
Proof.
  cbv zeta.
  pose (c := {| limitOf := Js.ofZ 2; pageOf := Js.ofZ 1; sortOf := ASC; populateOf := "" |}).
  destruct (list_success_any_page_and_limit Mem.gw Sample.school
              (Sample.request [("limit", "2")] [] []) c (Js.ofZ 3) Sample.school
              [{| Mem.id := 1; Mem.columns := Sample.alice; Mem.courses := None |};
               {| Mem.id := 2; Mem.columns := Sample.bob; Mem.courses := None |}]
              Sample.school
              ltac:(vm_compute; reflexivity) ltac:(vm_compute; reflexivity)
              ltac:(vm_compute; reflexivity))
    as (Hres & Hdb & Hresp & _ & Hpages).
  split; [exact Hres|]. split; [exact Hdb|].
  split; [rewrite Hresp; vm_compute; reflexivity|].
  destruct (Hpages 3 eq_refl ltac:(lia) ltac:(unfold safe; lia)) as [Hsafe _].
  destruct (Hsafe 2 eq_refl ltac:(lia) ltac:(unfold safe; lia)) as (pages & Hto & Hbounds).
  exists pages. split; [|exact Hbounds].
  rewrite <- Hto. vm_compute. reflexivity.
Defined.

(** [?page=-1&limit=5]: the offset is [(-1 - 1) * 5], negative. *)
Lemma list_offset_sign_negative_page :
  let req := Sample.request [("page", "-1"); ("limit", "5")] [] [] in
  Mem.gw Teacher_count Sample.school = (Resolved (Js.ofZ 3), Sample.school) /\
  exists options,
    queries (handle Mem.gw (getAllTeachers req) Sample.school) = [options] /\
    Js.toZ (offset options) = Some (-10) /\
    offset options = Js.Finite (-5629499534213120) (-49).
Proof.
  cbv zeta. split; [reflexivity|].
  destruct (list_offset_sign Mem.gw Sample.school
              (Sample.request [("page", "-1"); ("limit", "5")] [] [])
              {| limitOf := Js.ofZ 5; pageOf := Js.ofZ (-1); sortOf := ASC;
                 populateOf := "" |}
              (Js.ofZ 3) Sample.school (-1) 5
              ltac:(vm_compute; reflexivity) ltac:(vm_compute; reflexivity)
              eq_refl eq_refl
              ltac:(unfold safe; lia) ltac:(unfold safe; lia)
              ltac:(unfold safe; lia) ltac:(unfold safe; lia))
    as (options & Hq & Hoff & _).
  exists options. split; [exact Hq|]. split; [exact Hoff|].
  assert (Hc : queries (handle Mem.gw
                          (getAllTeachers
                             (Sample.request [("page", "-1"); ("limit", "5")] [] []))
                          Sample.school)
               = [{| limit := Js.ofZ 5; offset := Js.Finite (-5629499534213120) (-49);
                     order := [("id", ASC)]; include := [] |}])
    by (vm_compute; reflexivity).
  rewrite Hc in Hq. injection Hq as <-. reflexivity.
Defined.

Lemma list_include_counts_tokens_twice :
  let req := Sample.request [("populate", "course,Course,courses")] [] [] in
  Mem.gw Teacher_count Sample.school = (Resolved (Js.ofZ 3), Sample.school) /\
  exists options,
    queries (handle Mem.gw (getAllTeachers req) Sample.school) = [options] /\
    length (include options) = 2%nat.
Proof.
  cbv zeta. split; [reflexivity|].
  exact (list_include_counts_tokens Mem.gw Sample.school
           (Sample.request [("populate", "course,Course,courses")] [] [])
           {| limitOf := Js.ofZ 10; pageOf := Js.ofZ 1; sortOf := ASC;
              populateOf := "course,course,courses" |}
           (Js.ofZ 3) Sample.school
           ltac:(vm_compute; reflexivity) ltac:(vm_compute; reflexivity)).
Defined.

(** [?limit=5abc]: the limit is 5. *)
Lemma list_limit_ignores_trailing_text_5abc :
  let req := Sample.request [("limit", "5abc")] [] [] in
  (Mem.gw Teacher_count Sample.school = (Resolved (Js.ofZ 3), Sample.school) /\
   5 <> 0 /\ endsNumeral "abc" = true /\
   query req !! "limit" = Some (Js.Str (pretty 5 +:+ "abc"))) /\
  exists options,
    queries (handle Mem.gw (getAllTeachers req) Sample.school) = [options] /\
    limit options = Js.Finite 5629499534213120 (-50) /\
    Js.toZ (limit options) = Some 5.
Proof.
  cbv zeta.
  assert (Hnz : 5 <> 0) by discriminate.
  split; [split; [reflexivity|split; [exact Hnz|split; reflexivity]]|].
  destruct (list_limit_ignores_trailing_text Mem.gw Sample.school
              (Sample.request [("limit", "5abc")] [] [])
              {| limitOf := Js.ofZ 5; pageOf := Js.ofZ 1; sortOf := ASC;
                 populateOf := "" |}
              (Js.ofZ 3) Sample.school 5 "abc"
              ltac:(vm_compute; reflexivity) ltac:(vm_compute; reflexivity)
              Hnz eq_refl eq_refl)
    as (options & Hq & Hlimit & Hsafe).
  exists options. split; [exact Hq|].
  split; [rewrite Hlimit; vm_compute; reflexivity|].
  apply Hsafe. unfold safe. lia.
Defined.

Lemma updateTeacher_found_bob :
  let req := Sample.request [] [("id", "2")] [("name", "Robert")] in
  let t := {| Mem.id := 2; Mem.columns := Sample.bob; Mem.courses := None |} in
  let call := instance_update t (req_body req) in
  let r := handle Mem.gw (updateTeacher req) Sample.school in
  Mem.gw (Teacher_findByPk (params req !! "id") []) Sample.school
    = (Resolved (Some t), Sample.school) /\
  calls r = [Teacher_findByPk (params req !! "id") []; call] /\
  db_after r = snd (Mem.gw call Sample.school) /\
  responses r =
    [{| status := 200;
        payload :=
          JInstance {| Mem.id := 2;
                       Mem.columns := {| Mem.name := "Robert"; Mem.department := "Art" |};
                       Mem.courses := None |} |}].
Proof.
  cbv zeta. split; [reflexivity|].
  exact (updateTeacher_found Mem.gw Sample.school
           (Sample.request [] [("id", "2")] [("name", "Robert")])
           {| Mem.id := 2; Mem.columns := Sample.bob; Mem.courses := None |}
           Sample.school eq_refl).
Defined.

Lemma deleteTeacher_found_bob :
  let req := Sample.request [] [("id", "2")] [] in
  let t := {| Mem.id := 2; Mem.columns := Sample.bob; Mem.courses := None |} in
  let call := instance_destroy t in
  let r := handle Mem.gw (deleteTeacher req) Sample.school in
  Mem.gw (Teacher_findByPk (params req !! "id") []) Sample.school
    = (Resolved (Some t), Sample.school) /\
  calls r = [Teacher_findByPk (params req !! "id") []; call] /\
  db_after r = snd (Mem.gw call Sample.school) /\
  responses r =
    [{| status := 200; payload := JObj [("message", JStr "Deleted")] |}].
Proof.
  cbv zeta. split; [reflexivity|].
  exact (deleteTeacher_found Mem.gw Sample.school
           (Sample.request [] [("id", "2")] [])
           {| Mem.id := 2; Mem.columns := Sample.bob; Mem.courses := None |}
           Sample.school eq_refl).
Defined.

Lemma lookup_rejection_is_500_unreachable :
  let req := Sample.request [] [("id", "2")] [("name", "Robert")] in
  let e := Error "connect ECONNREFUSED" in
  (forall incl,
     Mem.unreachable (Teacher_findByPk (params req !! "id") incl) Sample.school
     = (Rejected e, Sample.school)) /\
  Forall (fun h =>
            responses (handle Mem.unreachable h Sample.school) =
              [{| status := 500;
                  payload := JObj [("error", JStr "connect ECONNREFUSED")] |}] /\
            length (calls (handle Mem.unreachable h Sample.school)) = 1%nat /\
            existsb mutating (calls (handle Mem.unreachable h Sample.school)) = false /\
            db_after (handle Mem.unreachable h Sample.school) = Sample.school)
         [getTeacherById req; updateTeacher req; deleteTeacher req].
Proof.
  cbv zeta. split; [intros incl; reflexivity|].
  exact (lookup_rejection_is_500 Mem.unreachable Sample.school
           (Sample.request [] [("id", "2")] [("name", "Robert")])
           (Error "connect ECONNREFUSED") Sample.school
           (fun incl => eq_refl)).
Defined.

Lemma read_handlers_preserve_store_school :
  let req := Sample.request [("page", "-3")] [("id", "2")] [] in
  readsPreserve Mem.gw /\
  db_after (handle Mem.gw (getAllTeachers req) Sample.school) = Sample.school /\
  db_after (handle Mem.gw (getTeacherById req) Sample.school) = Sample.school.
Proof.
  cbv zeta. split; [exact Mem_readsPreserve|].
  exact (read_handlers_preserve_store Mem.gw Sample.school
           (Sample.request [("page", "-3")] [("id", "2")] []) Mem_readsPreserve).
Defined.
